(** * PBR-2-Source: the texture assembly, naming and reactive export pipeline

    A shallow embedding of [src/module/gui/backend.py] (class [CoreBackend])
    and of the export and watch slots of [src/module/gui/__init__.py] (class
    [MainWindow]), with the properties the specification states about them.

    Layout:
    - [PyStr]    the methods of Python's [str] the backend calls;
    - [Pathlib]  [pathlib.PurePosixPath]: parsing, [parts], [name], [parent];
    - [ImageLib], [CoreLib]  the interfaces of the modules the backend
                 imports ([core.io.image], [core.texops], [core.io.qtio],
                 [core.convert], [core.vmt]);
    - [Host]     the file system and the processes of the machine, where a
                 method depends on their answer;
    - [Backend]  [CoreBackend];
    - [Gui]      [MainWindow];
    - [Sample]   a small image library, a disk and a window to run them on;
    - the properties, each claim under its number (C1 to C10). *)

From Stdlib Require Import ZArith QArith Ascii String List Lia.
From stdpp Require Import gmap strings list.
Close Scope Q_scope.
Open Scope string_scope.
Open Scope list_scope.

(** ** Python [str] methods *)

Module PyStr.

(** [s.endswith(suffix)] *)
Fixpoint endswith (s suffix : string) : bool :=
  String.eqb s suffix
  || match s with
     | EmptyString => false
     | String _ t => endswith t suffix
     end.

(** [s.removesuffix(suffix)]: [s[:-len(suffix)]] when [s] ends with
    [suffix], else [s]. *)
Definition removesuffix (s suffix : string) : string :=
  if endswith s suffix
  then String.substring 0 (String.length s - String.length suffix) s
  else s.

(** [s.split(sep)] for a one-character separator. *)
Fixpoint split (sep : ascii) (s : string) : list string :=
  match s with
  | EmptyString => [EmptyString]
  | String c t =>
      if Ascii.eqb c sep then EmptyString :: split sep t
      else match split sep t with
           | h :: r => String c h :: r
           | [] => [String c EmptyString]
           end
  end.

(** [s.lstrip(sep)] for a one-character set. *)
Fixpoint lstrip (sep : ascii) (s : string) : string :=
  match s with
  | EmptyString => EmptyString
  | String c t => if Ascii.eqb c sep then lstrip sep t else s
  end.

(** [s.rsplit(sep, 1)]: split once, at the last occurrence of [sep]. *)
Fixpoint rsplit1 (sep : ascii) (s : string) : list string :=
  match s with
  | EmptyString => [EmptyString]
  | String c t =>
      match rsplit1 sep t with
      | [x] => if Ascii.eqb c sep then [EmptyString; x] else [String c x]
      | h :: r => String c h :: r
      | [] => [String c EmptyString]
      end
  end.

(** [l[-1]] on a list that [rsplit] returned (never empty). *)
Definition item_last (l : list string) : string := List.last l EmptyString.

(** [c in s] for a character. *)
Fixpoint contains (c : ascii) (s : string) : bool :=
  match s with
  | EmptyString => false
  | String d t => Ascii.eqb d c || contains c t
  end.

End PyStr.

(** ** [pathlib], POSIX flavour *)

Module Pathlib.

(** A parsed pure path: the root (empty, ["/"] or ["//"]) and the components
    after it. *)
Record PurePath := mkPath { root : string; tail : list string }.

(** [_PosixFlavour.splitroot] *)
Definition splitroot (part : string) : string * string :=
  match part with
  | String c _ =>
      if Ascii.eqb c "/" then
        let stripped_part := PyStr.lstrip "/" part in
        if Nat.eqb (String.length part - String.length stripped_part) 2
        then ("//", stripped_part)
        else ("/", stripped_part)
      else (EmptyString, part)
  | EmptyString => (EmptyString, part)
  end.

(** [Path(pathStr)]: empty components and ["."] are dropped. *)
Definition Path (pathStr : string) : PurePath :=
  let '(rt, rel) := splitroot pathStr in
  {| root := rt;
     tail := List.filter (fun x => negb (String.eqb x "") && negb (String.eqb x "."))
               (PyStr.split "/" rel) |}.

(** [path.parts] *)
Definition parts (p : PurePath) : list string :=
  (if String.eqb (root p) "" then [] else [root p]) ++ tail p.

(** [path.name]: the final component, [''] when there is none. *)
Definition name (p : PurePath) : string := List.last (tail p) EmptyString.

(** [path.parent] *)
Definition parent (p : PurePath) : PurePath :=
  match tail p with
  | [] => p
  | _ => {| root := root p; tail := removelast (tail p) |}
  end.

(** [path.stem] for a path with the final component [name]: the name
    without its suffix, which starts at its last dot when that dot is neither
    the first nor the last character. *)
Definition stem_of (name : string) : string :=
  match PyStr.rsplit1 "." name with
  | [h; t] =>
      match h, t with
      | String _ _, String _ _ => h
      | _, _ => name
      end
  | _ => name
  end.

(** [str(path)] *)
Definition to_str (p : PurePath) : string :=
  match tail p with
  | [] => if String.eqb (root p) "" then "." else root p
  | _ => root p +:+ String.concat "/" (tail p)
  end.

End Pathlib.

(** ** The modules the backend imports

    [core.io.image.Image], [core.texops], [core.io.qtio], [core.convert] and
    [core.vmt] are used by the backend through the calls below; they are
    taken here as interfaces with the behaviour the design document gives
    them. *)

(** [ImageRole] *)
Inductive ImageRole :=
| Albedo | Roughness | Metallic | Emit | AO | Normal | Height.

(** The string value of each member of the [StrEnum]. *)
Definition role_value (role : ImageRole) : string :=
  match role with
  | Albedo => "albedo"
  | Roughness => "roughness"
  | Metallic => "metallic"
  | Emit => "emit"
  | AO => "ao"
  | Normal => "normal"
  | Height => "height"
  end.

Definition role_eqb (a b : ImageRole) : bool :=
  match a, b with
  | Albedo, Albedo | Roughness, Roughness | Metallic, Metallic | Emit, Emit
  | AO, AO | Normal, Normal | Height, Height => true
  | _, _ => false
  end.

(** [GameTarget]: the members the window offers in its game menu. *)
Inductive GameTarget := V2007 | V2011 | VGMOD | V2023.

(** [MaterialMode]: the members the window offers in its mode menu. *)
Inductive MaterialMode :=
| PBRModel | PhongEnvmap | PhongEnvmapAlpha | PhongEnvmapEmit
| PBRBrush | Envmap | EnvmapAlpha | EnvmapEmit.

(** Modelled from the spec: the class [Image] of [core.io.image] and
    [texops.normalize] of [core.texops] are not part of the sources at hand.
    A size is a pair (width, height); a colour is a tuple of components; a
    colour mode is written with one letter per component (['RGB'], ['L']).
    - [blank size color] is [Image.blank(size, color)], a flat-colour bitmap
      of the given size;
    - [normalize img size mode] is [texops.normalize(img, size, mode=mode)],
      with [None] for an omitted [size]: the bitmap is stretched to [size]
      when one is given and keeps its own size otherwise, and is converted to
      [mode];
    - [img_flat img color] says that every pixel of [img] is [color].
    Every [Image] object is truthy. *)
Class ImageLib := {
  Image : Type;
  img_size : Image -> Z * Z;
  img_mode : Image -> string;
  img_flat : Image -> list Q -> Prop;
  blank : Z * Z -> list Q -> Image;
  normalize : Image -> option (Z * Z) -> string -> Image;
  blank_size : forall sz color, img_size (blank sz color) = sz;
  blank_flat : forall sz color, img_flat (blank sz color) color;
  normalize_size : forall img sz md, img_size (normalize img (Some sz) md) = sz;
  normalize_size_default : forall img md, img_size (normalize img None md) = img_size img;
  normalize_mode : forall img sz md, img_mode (normalize img sz md) = md;
  normalize_flat : forall img sz md color,
      img_flat img color -> List.length color = String.length md ->
      img_flat (normalize img sz md) color
}.

(** Modelled from the spec: the class [Material] of [core.material] is not
    part of the sources at hand. It is a value with the fields its
    constructor is given in [make_material]: [mode], [target], [size] and
    [name] by position and the seven channels by keyword. *)
Record Material `{ImageLib} := mkMaterial {
  m_mode : MaterialMode;
  m_target : GameTarget;
  m_size : Z * Z;
  m_name : string;
  m_albedo : Image;
  m_roughness : Image;
  m_metallic : Image;
  m_emit : option Image;
  m_ao : option Image;
  m_normal : Image;
  m_height : option Image
}.

(** [material.name = value] *)
Definition set_m_name `{ImageLib} (value : string) (material : Material) : Material :=
  {| m_mode := m_mode material; m_target := m_target material;
     m_size := m_size material; m_name := value;
     m_albedo := m_albedo material; m_roughness := m_roughness material;
     m_metallic := m_metallic material; m_emit := m_emit material;
     m_ao := m_ao material; m_normal := m_normal material;
     m_height := m_height material |}.

(** An element of what [core.convert.export] returns, with the two
    attributes [export] reads: [name], the suffix of the texture's file name,
    and [image], its bitmap. *)
Record Texture `{ImageLib} := mkTexture {
  tex_name : string;
  tex_image : Image
}.

(** The decoders of [core.io.qtio], the exporter [core.convert.export], the
    descriptor renderer [core.vmt.make_vmt] and [GameTarget.vtf_version]:
    not part of the sources at hand, and taken as parameters. A call that
    raises is [None]. *)
Class CoreLib `{ImageLib} := {
  QImage : Type;
  QtIOBackend_load : string -> option Image;
  QtIOBackend_load_qimage : string -> option QImage;
  image_to_qimage : Image -> QImage;
  qimage_to_image : QImage -> Image;
  core_export : Material -> option (list Texture);
  core_make_vmt : Material -> option string;
  vtf_version : GameTarget -> Z
}.

(** ** Exceptions, effects and the monad the methods run in *)

Inductive Exception :=
| AssertionError (msg : string)
| InterruptedError
| DecodeError (path : string)
| CoreError (stage : string)
| OSError (msg : string).

Inductive Outcome (A : Type) :=
| Ok (a : A)
| Raise (e : Exception).
Arguments Ok {A} a.
Arguments Raise {A} e.

(** What a method does to the outside world, in order. [WriteText dir file]
    is [open(dir / file, 'w').write(text)], [SaveImage dir file] is
    [image.save(dir / file, version=version)]; [Print] keeps the literal
    part of the printed line; [MessageBox], [FileDialog] and [Popen] are the
    dialog shown and the process started. An event is in the trace of a run
    when the call behind it returned: a call that raised leaves none. *)
Inductive Event `{CoreLib} :=
| Print (text : string)
| WriteText (dir : Pathlib.PurePath) (file : string) (text : string)
| SaveImage (dir : Pathlib.PurePath) (file : string) (image : Image) (version : Z)
| MessageBox (title text : string)
| Popen (argv : list string)
| FileDialog (caption : string)
| SetIcon (img : option QImage).

(** Files the events put on disk: directory and file name of each write
    that returned. *)
Definition written `{CoreLib} (ev : Event) : option (Pathlib.PurePath * string) :=
  match ev with
  | WriteText dir file _ => Some (dir, file)
  | SaveImage dir file _ _ => Some (dir, file)
  | _ => None
  end.

Fixpoint files_written `{CoreLib} (evs : list Event) : list (Pathlib.PurePath * string) :=
  match evs with
  | [] => []
  | ev :: rest =>
      match written ev with
      | Some file => file :: files_written rest
      | None => files_written rest
      end
  end.

Section Monad.
Context `{CoreLib}.

(** A method on an object of state [S]: its result or the exception it
    raises, the object afterwards, and the effects in order. Assignments
    made before an exception is raised stay. *)
Definition M (S A : Type) : Type := S -> Outcome A * S * list Event.

Definition ret {S A} (a : A) : M S A := fun s => (Ok a, s, []).

Definition bind {S A B} (m : M S A) (k : A -> M S B) : M S B :=
  fun s =>
    match m s with
    | (Ok a, s1, ev1) =>
        match k a s1 with
        | (r, s2, ev2) => (r, s2, ev1 ++ ev2)
        end
    | (Raise e, s1, ev1) => (Raise e, s1, ev1)
    end.

Definition raise {S A} (e : Exception) : M S A := fun s => (Raise e, s, []).

Definition get {S} : M S S := fun s => (Ok s, s, []).

Definition modify {S} (f : S -> S) : M S unit := fun s => (Ok tt, f s, []).

Definition effect {S} (ev : Event) : M S unit := fun s => (Ok tt, s, [ev]).

(** [try: body except Exception as e: handler(e)] *)
Definition try_except {S A} (body : M S A) (handler : Exception -> M S A) : M S A :=
  fun s =>
    match body s with
    | (Ok a, s1, ev1) => (Ok a, s1, ev1)
    | (Raise e, s1, ev1) =>
        match handler e s1 with
        | (r, s2, ev2) => (r, s2, ev1 ++ ev2)
        end
    end.

(** [try: body finally: final] *)
Definition try_finally {S A} (body : M S A) (final : M S unit) : M S A :=
  fun s =>
    match body s with
    | (r, s1, ev1) =>
        match final s1 with
        | (Ok _, s2, ev2) => (r, s2, ev1 ++ ev2)
        | (Raise e, s2, ev2) => (Raise e, s2, ev1 ++ ev2)
        end
    end.

(** A call that raises [e] when the library call fails. *)
Definition call {S A} (r : option A) (e : Exception) : M S A :=
  match r with
  | Some a => ret a
  | None => raise e
  end.

(** [for x in xs: body(x)] *)
Fixpoint for_each {S A} (xs : list A) (body : A -> M S unit) : M S unit :=
  match xs with
  | [] => ret tt
  | x :: rest => bind (body x) (fun _ => for_each rest body)
  end.

(** Running a method of a member object: [self.member.method(...)]. *)
Definition on_member {S T A} (read : S -> T) (write : T -> S -> S) (m : M T A) : M S A :=
  fun s =>
    match m (read s) with
    | (r, t, ev) => (r, write t s, ev)
    end.

(** The three parts of a run. *)
Definition outcome_of {S A} (m : M S A) (s : S) : Outcome A := fst (fst (m s)).
Definition state_after {S A} (m : M S A) (s : S) : S := snd (fst (m s)).
Definition events_of {S A} (m : M S A) (s : S) : list Event := snd (m s).
End Monad.

(** The machine the program runs on, where a method depends on its answer.
    - [refused ev] is the exception that the call behind [ev] raises on this
      machine, [None] when the call returns. The methods ask it for the
      calls that reach the file system or start a process: [open(..., 'w')]
      with the write that follows, [image.save] and [subprocess.Popen].
    - [watchable path] says that [path] names a file that exists. Qt's
      [QFileSystemWatcher.addPaths] does not add a path that does not
      exist, and it lists a directory under [directories()], not under
      [files()]. *)
Class Host `{CoreLib} := {
  refused : Event -> option Exception;
  watchable : string -> bool
}.

(** A call that the machine may refuse: it raises what the machine answers,
    and else leaves its event. *)
Definition attempt `{Host} {S : Type} (ev : Event) : M S unit :=
  match refused ev with
  | Some e => raise e
  | None => effect ev
  end.

(** The items of a loop of such calls that are done when the loop ends: all
    of them, or those before the first one refused. *)
Fixpoint accepted `{Host} {A : Type} (f : A -> Event) (xs : list A) : list A :=
  match xs with
  | [] => []
  | x :: rest =>
      match refused (f x) with
      | Some _ => []
      | None => x :: accepted f rest
      end
  end.

(** The exception that ends such a loop, [None] when it runs through. *)
Fixpoint refusal `{Host} {A : Type} (f : A -> Event) (xs : list A) : option Exception :=
  match xs with
  | [] => None
  | x :: rest =>
      match refused (f x) with
      | Some e => Some e
      | None => refusal f rest
      end
  end.

Notation "'let*' x ':=' m 'in' k" := (bind m (fun x => k))
  (at level 10, x name, m at level 100, k at level 200).
Notation "'let*' ' p ':=' m 'in' k" := (bind m (fun x => match x with p => k end))
  (at level 10, p pattern, m at level 100, k at level 200).
Notation "m >> k" := (bind m (fun _ => k))
  (at level 90, right associativity).

(** ** [CoreBackend] *)

Module Backend.
Section Backend.
Context `{Host}.

Record CoreBackend := mkBackend {
  albedo : option Image;
  roughness : option Image;
  metallic : option Image;
  emit : option Image;
  ao : option Image;
  normal : option Image;
  height : option Image;
  albedoPath : option string;
  roughnessPath : option string;
  metallicPath : option string;
  emitPath : option string;
  aoPath : option string;
  normalPath : option string;
  heightPath : option string;
  path : option Pathlib.PurePath;
  name : string;
  game : GameTarget;
  mode : MaterialMode
}.

(** [self.__getattribute__(role)] *)
Definition get_image (role : ImageRole) (self : CoreBackend) : option Image :=
  match role with
  | Albedo => albedo self
  | Roughness => roughness self
  | Metallic => metallic self
  | Emit => emit self
  | AO => ao self
  | Normal => normal self
  | Height => height self
  end.

(** [self.__getattribute__(role+'Path')] *)
Definition get_path (role : ImageRole) (self : CoreBackend) : option string :=
  match role with
  | Albedo => albedoPath self
  | Roughness => roughnessPath self
  | Metallic => metallicPath self
  | Emit => emitPath self
  | AO => aoPath self
  | Normal => normalPath self
  | Height => heightPath self
  end.

(** [self.__setattr__(role, value)] *)
Definition set_image (role : ImageRole) (value : option Image) (self : CoreBackend)
  : CoreBackend :=
  let upd r old := if role_eqb r role then value else old in
  {| albedo := upd Albedo (albedo self);
     roughness := upd Roughness (roughness self);
     metallic := upd Metallic (metallic self);
     emit := upd Emit (emit self);
     ao := upd AO (ao self);
     normal := upd Normal (normal self);
     height := upd Height (height self);
     albedoPath := albedoPath self;
     roughnessPath := roughnessPath self;
     metallicPath := metallicPath self;
     emitPath := emitPath self;
     aoPath := aoPath self;
     normalPath := normalPath self;
     heightPath := heightPath self;
     path := path self; name := name self; game := game self; mode := mode self |}.

(** [self.__setattr__(role+'Path', value)] *)
Definition set_path (role : ImageRole) (value : option string) (self : CoreBackend)
  : CoreBackend :=
  let upd r old := if role_eqb r role then value else old in
  {| albedo := albedo self;
     roughness := roughness self;
     metallic := metallic self;
     emit := emit self;
     ao := ao self;
     normal := normal self;
     height := height self;
     albedoPath := upd Albedo (albedoPath self);
     roughnessPath := upd Roughness (roughnessPath self);
     metallicPath := upd Metallic (metallicPath self);
     emitPath := upd Emit (emitPath self);
     aoPath := upd AO (aoPath self);
     normalPath := upd Normal (normalPath self);
     heightPath := upd Height (heightPath self);
     path := path self; name := name self; game := game self; mode := mode self |}.

(** [self.path = dir; self.name = value] *)
Definition set_target (dir : Pathlib.PurePath) (value : string) (self : CoreBackend)
  : CoreBackend :=
  {| albedo := albedo self;
     roughness := roughness self;
     metallic := metallic self;
     emit := emit self;
     ao := ao self;
     normal := normal self;
     height := height self;
     albedoPath := albedoPath self;
     roughnessPath := roughnessPath self;
     metallicPath := metallicPath self;
     emitPath := emitPath self;
     aoPath := aoPath self;
     normalPath := normalPath self;
     heightPath := heightPath self;
     path := Some dir; name := value; game := game self; mode := mode self |}.

(** The backend as the class body declares it, for a preset's game and
    mode. *)
Definition initial (g : GameTarget) (m : MaterialMode) : CoreBackend :=
  {| albedo := None; roughness := None; metallic := None; emit := None;
     ao := None; normal := None; height := None;
     albedoPath := None; roughnessPath := None; metallicPath := None;
     emitPath := None; aoPath := None; normalPath := None; heightPath := None;
     path := None; name := "ThisShouldNeverAppear"; game := g; mode := m |}.

(** Truth value of a [str|None]. *)
Definition truthy (s : option string) : bool :=
  match s with
  | Some (String _ _) => true
  | _ => false
  end.

(** [convert(self, path, role)] *)
Definition convert (path : string) (role : ImageRole) : M CoreBackend (QImage * Image) :=
  let* '(image, converted) :=
    (if PyStr.endswith path ".vtf" || PyStr.endswith path ".hdr" then
       let* converted := call (QtIOBackend_load path) (DecodeError path) in
       ret (image_to_qimage converted, converted)
     else
       let* image := call (QtIOBackend_load_qimage path) (DecodeError path) in
       ret (image, qimage_to_image image)) in
  modify (set_image role (Some converted)) >>
  ret (image, converted).

(** [pick(self, path, role)] *)
Definition pick (path : option string) (role : ImageRole) : M CoreBackend (option QImage) :=
  modify (set_path role path) >>
  match path with
  | Some p =>
      if truthy path then
        let* r := convert p role in
        ret (Some (fst r))
      else
        modify (set_image role None) >> ret None
  | None => modify (set_image role None) >> ret None
  end.

(** The loop of [pick_vmt] over [reversed(path.parts[:-1])]: the prefix
    built so far and whether ['materials'] was met. *)
Fixpoint scan (components : list string) (namePath : string) : string * bool :=
  match components with
  | [] => (namePath, false)
  | component :: rest =>
      if String.eqb component "materials" then (namePath, true)
      else scan rest (component +:+ "/" +:+ namePath)
  end.

(** The components each followed by a slash, as the loop prepends them. *)
Fixpoint slashed (components : list string) : string :=
  match components with
  | [] => ""
  | c :: rest => c +:+ "/" +:+ slashed rest
  end.

(** The name [pick_vmt] assigns to [self.name]. *)
Definition material_name (pathStr : string) : string :=
  let path := Pathlib.Path pathStr in
  let name := PyStr.removesuffix (Pathlib.name path) ".vmt" in
  let '(namePath, useNamePath) := scan (rev (removelast (Pathlib.parts path))) "" in
  if useNamePath then namePath +:+ name else name.

(** [pick_vmt(self, pathStr)] *)
Definition pick_vmt (pathStr : string) : M CoreBackend unit :=
  modify (set_target (Pathlib.parent (Pathlib.Path pathStr)) (material_name pathStr)).

(** [getImage(role)], the helper inside [make_material]. *)
Definition getImage (noCache : bool) (role : ImageRole) : M CoreBackend (option Image) :=
  if noCache then
    let* self := get in
    match get_path role self with
    | None => ret None
    | Some rolePath =>
        let* r := convert rolePath role in
        ret (Some (snd r))
    end
  else
    let* self := get in
    ret (get_image role self).

(** [x or y] for an optional image. *)
Definition or_else (x : option Image) (y : Image) : Image :=
  match x with
  | Some img => img
  | None => y
  end.

(** [make_material(self, noCache)] *)
Definition make_material (noCache : bool) : M CoreBackend Material :=
  let* albedo := getImage noCache Albedo in
  match albedo with
  | None => raise (AssertionError "A basetexture is required to convert the material!")
  | Some albedo =>
  let* roughness := getImage noCache Roughness in
  match roughness with
  | None => raise (AssertionError "A roughness map is required to convert the material!")
  | Some roughness =>
  let* metallic := getImage noCache Metallic in
  let metallic := or_else metallic (blank (img_size roughness) [0%Q]) in
  let* emit := getImage noCache Emit in
  let* ao := getImage noCache AO in
  let* normal := getImage noCache Normal in
  let normal := or_else normal (blank (img_size roughness) [(1#2)%Q; (1#2)%Q; 1%Q]) in
  let* height := getImage noCache Height in
  let height := or_else height (blank (img_size normal) [(1#2)%Q]) in
  effect (Print "Constructing material...") >>
  let* self := get in
  ret {| m_mode := mode self;
         m_target := game self;
         m_size := img_size normal;
         m_name := name self;
         m_albedo := normalize albedo None "RGB";
         m_roughness := normalize roughness (Some (img_size normal)) "L";
         m_metallic := normalize metallic (Some (img_size normal)) "L";
         m_emit := option_map (fun emit => normalize emit (Some (img_size albedo)) "L") emit;
         m_ao := option_map (fun ao => normalize ao (Some (img_size albedo)) "L") ao;
         m_normal := normalize normal None "RGB";
         m_height := Some (normalize height (Some (img_size normal)) "L") |}
  end
  end.

(** The file name of a texture: [isolatedName + texture.name + '.vtf']. *)
Definition texture_file (isolatedName : string) (texture : Texture) : string :=
  isolatedName +:+ tex_name texture +:+ ".vtf".

(** [export(self, material)]. The value returned is the [material] object
    as the call leaves it. Opening the descriptor and saving a texture
    raise when the machine refuses them. *)
Definition export (material : Material) : M CoreBackend Material :=
  let* self := get in
  match path self with
  | None => raise (AssertionError "Something has gone very very wrong. Find a developer!")
  | Some dir =>
  let material := set_m_name (name self) material in
  effect (Print "Creating textures...") >>
  let* textures := call (core_export material) (CoreError "export") in
  let textureVersion := vtf_version (m_target material) in
  effect (Print "Making VMT...") >>
  let* vmt := call (core_make_vmt material) (CoreError "make_vmt") in
  let isolatedName := PyStr.item_last (PyStr.rsplit1 "/" (name self)) in
  effect (Print "Writing files...") >>
  attempt (WriteText dir (isolatedName +:+ ".vmt") vmt) >>
  for_each textures (fun texture =>
    attempt (SaveImage dir (texture_file isolatedName texture)
             (tex_image texture) textureVersion)) >>
  ret material
  end.

(** The two decoding branches of [convert] as a function of the file
    name: the preview and the image, [None] when the decoder raises. *)
Definition decode (path : string) : option (QImage * Image) :=
  if PyStr.endswith path ".vtf" || PyStr.endswith path ".hdr" then
    option_map (fun converted => (image_to_qimage converted, converted))
      (QtIOBackend_load path)
  else
    option_map (fun image => (image, qimage_to_image image))
      (QtIOBackend_load_qimage path).

(** The channel that [getImage] yields for [role] from the backend [self]:
    the cached image, or with [noCache] the stored file decoded anew;
    [None] when decoding it raises. *)
Definition channel (noCache : bool) (role : ImageRole) (self : CoreBackend)
  : option (option Image) :=
  if noCache then
    match get_path role self with
    | None => Some None
    | Some rolePath =>
        match decode rolePath with
        | Some r => Some (Some (snd r))
        | None => None
        end
    end
  else Some (get_image role self).

(** The backend after [getImage] has yielded the channel [c]: with
    [noCache], [convert] has cached the image it decoded. *)
Definition fetched (noCache : bool) (role : ImageRole) (c : option Image)
    (self : CoreBackend) : CoreBackend :=
  match noCache, c with
  | true, Some img => set_image role (Some img) self
  | _, _ => self
  end.

(** The reference size of a channel set: the size of the Normal channel
    when there is one, else that of the Roughness channel. *)
Definition reference_size (roughness : Image) (normal : option Image) : Z * Z :=
  match normal with
  | Some n => img_size n
  | None => img_size roughness
  end.

End Backend.
End Backend.

(** ** [MainWindow]: the export and watch slots *)

Module Gui.
Section Gui.
Context `{Host}.

(** The two settings of [AppConfig] the slots read. *)
Record AppConfig := mkConfig {
  reloadOnExport : bool;
  hijackTarget : option string
}.

(** The window: its own attributes, the backend, and of its widgets what
    the slots set (the value of the progress bar, whether the export
    button is enabled, the text of the watch action).
    - [watcherCooldown] is the single-shot [QTimer]: the interval it was
      started with while it is pending;
    - [watcher] is the [QFileSystemWatcher], as the set of files it
      watches: [files()] lists the set, [addPaths] adds to it the paths
      that name a file and [removePaths] removes from it. *)
Record MainWindow := mkWindow {
  target : option string;
  exporting : bool;
  watching : bool;
  watcherCooldown : option Z;
  watcher : gset string;
  config : AppConfig;
  backend : Backend.CoreBackend;
  progressBar : Z;
  exportButton : bool;
  watchAction : string
}.

Definition set_target (value : option string) (self : MainWindow) : MainWindow :=
  {| target := value;
     exporting := exporting self;
     watching := watching self;
     watcherCooldown := watcherCooldown self;
     watcher := watcher self;
     config := config self;
     backend := backend self;
     progressBar := progressBar self;
     exportButton := exportButton self;
     watchAction := watchAction self |}.

Definition set_exporting (value : bool) (self : MainWindow) : MainWindow :=
  {| target := target self;
     exporting := value;
     watching := watching self;
     watcherCooldown := watcherCooldown self;
     watcher := watcher self;
     config := config self;
     backend := backend self;
     progressBar := progressBar self;
     exportButton := exportButton self;
     watchAction := watchAction self |}.

Definition set_watching (value : bool) (self : MainWindow) : MainWindow :=
  {| target := target self;
     exporting := exporting self;
     watching := value;
     watcherCooldown := watcherCooldown self;
     watcher := watcher self;
     config := config self;
     backend := backend self;
     progressBar := progressBar self;
     exportButton := exportButton self;
     watchAction := watchAction self |}.

Definition set_watcherCooldown (value : option Z) (self : MainWindow) : MainWindow :=
  {| target := target self;
     exporting := exporting self;
     watching := watching self;
     watcherCooldown := value;
     watcher := watcher self;
     config := config self;
     backend := backend self;
     progressBar := progressBar self;
     exportButton := exportButton self;
     watchAction := watchAction self |}.

Definition set_watcher (value : gset string) (self : MainWindow) : MainWindow :=
  {| target := target self;
     exporting := exporting self;
     watching := watching self;
     watcherCooldown := watcherCooldown self;
     watcher := value;
     config := config self;
     backend := backend self;
     progressBar := progressBar self;
     exportButton := exportButton self;
     watchAction := watchAction self |}.

Definition set_backend (value : Backend.CoreBackend) (self : MainWindow) : MainWindow :=
  {| target := target self;
     exporting := exporting self;
     watching := watching self;
     watcherCooldown := watcherCooldown self;
     watcher := watcher self;
     config := config self;
     backend := value;
     progressBar := progressBar self;
     exportButton := exportButton self;
     watchAction := watchAction self |}.

Definition set_progressBar (value : Z) (self : MainWindow) : MainWindow :=
  {| target := target self;
     exporting := exporting self;
     watching := watching self;
     watcherCooldown := watcherCooldown self;
     watcher := watcher self;
     config := config self;
     backend := backend self;
     progressBar := value;
     exportButton := exportButton self;
     watchAction := watchAction self |}.

Definition set_exportButton (value : bool) (self : MainWindow) : MainWindow :=
  {| target := target self;
     exporting := exporting self;
     watching := watching self;
     watcherCooldown := watcherCooldown self;
     watcher := watcher self;
     config := config self;
     backend := backend self;
     progressBar := progressBar self;
     exportButton := value;
     watchAction := watchAction self |}.

Definition set_watchAction (value : string) (self : MainWindow) : MainWindow :=
  {| target := target self;
     exporting := exporting self;
     watching := watching self;
     watcherCooldown := watcherCooldown self;
     watcher := watcher self;
     config := config self;
     backend := backend self;
     progressBar := progressBar self;
     exportButton := exportButton self;
     watchAction := value |}.

(** [self.backend.method(...)] *)
Definition on_backend {A} (m : M Backend.CoreBackend A) : M MainWindow A :=
  on_member backend set_backend m.

(** [QFileSystemWatcher.files] *)
Definition files (w : gset string) : list string := elements w.

(** [QFileSystemWatcher.addPaths]: a path that does not name a file that
    exists is left out. *)
Definition addPaths (paths : list string) (w : gset string) : gset string :=
  w ∪ list_to_set (List.filter watchable paths).

(** [QFileSystemWatcher.removePaths] *)
Definition removePaths (paths : list string) (w : gset string) : gset string :=
  w ∖ list_to_set paths.

(** The signals connected to the export slots: the Export action, the
    Export As action and button, and the timeout of [watcherCooldown]. *)
Inductive Trigger := ExportAction | ExportAsAction | CooldownTimeout.

(** The list [start_watch] builds: the stored paths that are not [None],
    in the order of the roles there. *)
Definition stored_paths (b : Backend.CoreBackend) : list string :=
  omap id [ Backend.albedoPath b; Backend.roughnessPath b; Backend.metallicPath b;
            Backend.emitPath b; Backend.aoPath b; Backend.normalPath b;
            Backend.heightPath b ].

(** [start_watch(self)] *)
Definition start_watch : M MainWindow unit :=
  modify (set_watchAction "Stop Watching") >>
  let* self := get in
  let paths := stored_paths (backend self) in
  modify (set_watcher (addPaths paths (watcher self))).

(** [stop_watch(self)] *)
Definition stop_watch : M MainWindow unit :=
  modify (set_watchAction "Watch") >>
  let* self := get in
  modify (set_watcher (removePaths (files (watcher self)) (watcher self))).

(** [reset_watch(self)] *)
Definition reset_watch : M MainWindow unit :=
  let* self := get in
  if negb (watching self) then ret tt else
  effect (Print "Resetting watch...") >>
  stop_watch >>
  start_watch >>
  effect (Print "Watching:").

(** [picked(self, kind, path, set_icon)]; a [Path] object is truthy. *)
Definition picked (kind : ImageRole) (path : option Pathlib.PurePath) : M MainWindow unit :=
  let* img := on_backend (Backend.pick (option_map Pathlib.to_str path) kind) in
  reset_watch >>
  effect (SetIcon img).

(** [pick_target(self)]; [answer] is the file name the dialog returns,
    [''] when it is dismissed. *)
Definition pick_target (answer : string) : M MainWindow unit :=
  effect (Print "Picking target") >>
  effect (FileDialog "Saving material...") >>
  match answer with
  | EmptyString => ret tt
  | _ => modify (set_target (Some answer))
  end.

(** [str(e)] for the message box: the message of a failed assertion; for an
    exception of the libraries, the file or stage it names. *)
Definition exception_text (e : Exception) : string :=
  match e with
  | AssertionError msg => msg
  | InterruptedError => ""
  | DecodeError p => p
  | CoreError stage => stage
  | OSError msg => msg
  end.

(** [export_as(self)], over the [export] slot it ends in. *)
Definition export_as_of (export : M MainWindow unit) : M MainWindow unit :=
  let* self := get in
  if exporting self then ret tt else
  modify (set_target None) >>
  export.

(** The [try] block of [export]. [subprocess.Popen] raises when the machine
    cannot start the program. *)
Definition export_try (answer : string) : M MainWindow unit :=
  let* self := get in
  let* material := on_backend (Backend.make_material (reloadOnExport (config self))) in
  modify (set_progressBar 50%Z) >>
  let* self := get in
  match target self with
  | None => pick_target answer
  | Some _ => ret tt
  end >>
  let* self := get in
  match target self with
  | None => raise InterruptedError
  | Some targetPath =>
      on_backend (Backend.pick_vmt targetPath) >>
      let* _ := on_backend (Backend.export material) in
      modify (set_progressBar 100%Z) >>
      let* self := get in
      match hijackTarget (config self) with
      | Some (String c t) =>
          attempt (Popen [String c t; "-hijack";
                          "+mat_reloadmaterial " +:+ Backend.name (backend self)])
      | _ => ret tt
      end
  end.

(** The [except Exception as e] block of [export]. *)
Definition export_except (e : Exception) : M MainWindow unit :=
  modify (set_progressBar 0%Z) >>
  match e with
  | InterruptedError => effect (Print "The export was cancelled by the user.")
  | _ =>
      effect (Print "The export failed!") >>
      effect (MessageBox "Failed to export!" (exception_text e))
  end.

(** The [finally] block of [export]. *)
Definition export_finally : M MainWindow unit :=
  modify (set_exportButton true) >>
  modify (set_exporting false).

(** [export(self)]. [QApplication.processEvents()] runs the slots of the
    export triggers that are [pending] at that point; [nesting] bounds
    how deep event processing is followed. *)
Fixpoint export (nesting : nat) (pending : list Trigger) (answer : string)
  : M MainWindow unit :=
  let* self := get in
  if exporting self then ret tt else
  modify (set_exporting true) >>
  effect (Print "Exporting...") >>
  modify (set_exportButton false) >>
  modify (set_progressBar 0%Z) >>
  match nesting with
  | O => ret tt
  | S n =>
      for_each pending (fun t =>
        match t with
        | ExportAsAction => export_as_of (export n [] answer)
        | ExportAction | CooldownTimeout => export n [] answer
        end)
  end >>
  try_finally (try_except (export_try answer) export_except) export_finally.

(** The window once [export] has passed its guard and reset the widgets. *)
Definition entered (w : MainWindow) : MainWindow :=
  set_progressBar 0%Z (set_exportButton false (set_exporting true w)).

(** The window once the [finally] block has run. *)
Definition finished (w : MainWindow) : MainWindow :=
  set_exporting false (set_exportButton true w).

(** [export_as(self)] *)
Definition export_as (nesting : nat) (pending : list Trigger) (answer : string)
  : M MainWindow unit :=
  export_as_of (export nesting pending answer).

(** The slot a trigger runs. *)
Definition dispatch (t : Trigger) (nesting : nat) (pending : list Trigger) (answer : string)
  : M MainWindow unit :=
  match t with
  | ExportAsAction => export_as nesting pending answer
  | ExportAction | CooldownTimeout => export nesting pending answer
  end.

(** [watch(self)] *)
Definition watch (answer : string) : M MainWindow unit :=
  let* self := get in
  let* cancelled :=
    match watching self, target self with
    | false, None =>
        pick_target answer >>
        let* self := get in
        ret (negb (Backend.truthy (target self)))
    | _, _ => ret false
    end in
  if (cancelled : bool) then ret tt else
  modify (fun self => set_watching (negb (watching self)) self) >>
  let* self := get in
  (if watching self then start_watch else stop_watch) >>
  effect (Print "Watching:").

(** [on_file_changed(self, file)] *)
Definition on_file_changed (file : string) : M MainWindow unit :=
  let* self := get in
  if negb (watching self) then raise (AssertionError "SOMETHING HAS GONE VERY WRONG HERE!!") else
  effect (Print "File changed:") >>
  modify (set_watcherCooldown (Some 500%Z)).

End Gui.
End Gui.

(** ** A small image library and disk, to run the methods on

    A bitmap is its size, its colour mode and, when it is a flat fill, the
    colour; decoding reads a table of the files on disk. *)

Module Sample.

Record Bitmap := mkBitmap {
  b_size : Z * Z;
  b_mode : string;
  b_fill : option (list Q)
}.

Definition sample_flat (b : Bitmap) (color : list Q) : Prop := b_fill b = Some color.

Definition sample_blank (sz : Z * Z) (color : list Q) : Bitmap :=
  {| b_size := sz; b_mode := ""; b_fill := Some color |}.

Definition sample_normalize (b : Bitmap) (sz : option (Z * Z)) (md : string) : Bitmap :=
  {| b_size := match sz with Some s => s | None => b_size b end;
     b_mode := md;
     b_fill := match b_fill b with
               | Some color =>
                   if Nat.eqb (List.length color) (String.length md) then Some color else None
               | None => None
               end |}.

Definition images : ImageLib.
Proof.
  refine {| Image := Bitmap; img_size := b_size; img_mode := b_mode;
            img_flat := sample_flat; blank := sample_blank;
            normalize := sample_normalize |}; try reflexivity.
  intros img sz md color Hflat Hlen. unfold sample_flat, sample_normalize in *.
  simpl. rewrite Hflat, Hlen, Nat.eqb_refl. reflexivity.
Defined.

(** The files of a disk, by name; a name that is not listed does not decode. *)
Fixpoint lookup_file (disk : list (string * Bitmap)) (path : string) : option Bitmap :=
  match disk with
  | [] => None
  | (p, b) :: rest => if String.eqb p path then Some b else lookup_file rest path
  end.

(** A core that exports the base colour and the normal map, and renders the
    material name as the descriptor. *)
Definition core (disk : list (string * Bitmap)) : @CoreLib images :=
  {| QImage := @Image images;
     QtIOBackend_load := lookup_file disk : string -> option (@Image images);
     QtIOBackend_load_qimage := lookup_file disk : string -> option (@Image images);
     image_to_qimage := fun b => b;
     qimage_to_image := fun b => b;
     core_export := fun m =>
       Some [ {| tex_name := "_albedo"; tex_image := m_albedo m |};
              {| tex_name := "_bump"; tex_image := m_normal m |} ];
     core_make_vmt := fun m => Some (m_name m);
     vtf_version := fun _ => 5%Z |}.

(** A machine on which the files of [disk] exist and nothing else does, and
    on which the files and the programs named in [denied] cannot be written
    or started. *)
Definition host (disk : list (string * Bitmap)) (denied : list string)
  : @Host images (core disk) :=
  {| refused := fun ev : @Event images (core disk) =>
       match ev with
       | WriteText _ file _ | SaveImage _ file _ _ =>
           if existsb (String.eqb file) denied then Some (OSError file) else None
       | Popen (program :: _) =>
           if existsb (String.eqb program) denied then Some (OSError program) else None
       | _ => None
       end;
     watchable := fun path =>
       match lookup_file disk path with
       | Some _ => true
       | None => false
       end |}.

Definition bitmap (sz : Z * Z) (md : string) (fill : option (list Q)) : @Image images :=
  {| b_size := sz; b_mode := md; b_fill := fill |}.
Definition grey (w h : Z) : @Image images := bitmap (w, h) "L" None.
Definition colour (w h : Z) : @Image images := bitmap (w, h) "RGB" None.

Definition disk : list (string * Bitmap) :=
  [ ("albedo.png", colour 4 4); ("rough.png", grey 2 2); ("glow.png", grey 2 2);
    ("bump.png", colour 8 8) ].

(** A backend on [disk] with nothing picked. *)
Definition empty_backend : @Backend.CoreBackend images :=
  @Backend.initial images V2011 PBRModel.

(** The backend after Albedo, Roughness and Emit have been picked. *)
Definition store : @Backend.CoreBackend images :=
  {| Backend.albedo := Some (colour 4 4);
     Backend.roughness := Some (grey 2 2);
     Backend.metallic := None;
     Backend.emit := Some (grey 2 2);
     Backend.ao := None;
     Backend.normal := None;
     Backend.height := None;
     Backend.albedoPath := Some "albedo.png";
     Backend.roughnessPath := Some "rough.png";
     Backend.metallicPath := None;
     Backend.emitPath := Some "glow.png";
     Backend.aoPath := None;
     Backend.normalPath := None;
     Backend.heightPath := None;
     Backend.path := None;
     Backend.name := "ThisShouldNeverAppear";
     Backend.game := V2011;
     Backend.mode := PBRModel |}.

(** The Material [make_material] builds from [store]. *)
Definition material : @Material images :=
  {| m_mode := PBRModel;
     m_target := V2011;
     m_size := (2, 2)%Z;
     m_name := "ThisShouldNeverAppear";
     m_albedo := bitmap (4, 4)%Z "RGB" None;
     m_roughness := bitmap (2, 2)%Z "L" None;
     m_metallic := bitmap (2, 2)%Z "L" (Some [0%Q]);
     m_emit := Some (bitmap (4, 4)%Z "L" None);
     m_ao := None;
     m_normal := bitmap (2, 2)%Z "RGB" (Some [(1#2)%Q; (1#2)%Q; 1%Q]);
     m_height := Some (bitmap (2, 2)%Z "L" (Some [(1#2)%Q])) |}.

(** The backend of [store] once the target ["/a/materials/b/c.vmt"] is set. *)
Definition targeted : @Backend.CoreBackend images :=
  state_after (@Backend.pick_vmt _ (core disk) "/a/materials/b/c.vmt") store.

(** A window over a backend, with the export target [target]. *)
Definition window (b : @Backend.CoreBackend images) (target : option string)
    (exporting watching : bool) : @Gui.MainWindow images :=
  {| Gui.target := target;
     Gui.exporting := exporting;
     Gui.watching := watching;
     Gui.watcherCooldown := None;
     Gui.watcher := if watching then list_to_set (Gui.stored_paths b) else ∅;
     Gui.config := {| Gui.reloadOnExport := false; Gui.hijackTarget := None |};
     Gui.backend := b;
     Gui.progressBar := 0%Z;
     Gui.exportButton := true;
     Gui.watchAction := if watching then "Stop Watching" else "Watch" |}.

(** A window that watches the files of [store], after a pick of a file
    that is not on the disk has failed for Metallic: the path is stored. *)
Definition stale_window : @Gui.MainWindow images :=
  state_after (@Gui.picked _ _ (host disk []) Metallic (Some (Pathlib.Path "nothere.png")))
    (window store (Some "/a/b/c.vmt") false true).

End Sample.

(** ** Sequences of calls and what they keep *)

Section Traces.
Context `{CoreLib}.

(** The run of [m] takes every state to one related to it by [R]. *)
Definition preserves {S A} (R : S -> S -> Prop) (m : M S A) : Prop :=
  forall s, R s (state_after m s).





(** [self'] differs from [self] at most by images cached for roles that
    have a path. *)
Definition recached (self self' : Backend.CoreBackend) : Prop :=
  (forall role, Backend.get_path role self' = Backend.get_path role self)
  /\ Backend.path self' = Backend.path self
  /\ Backend.name self' = Backend.name self
  /\ Backend.game self' = Backend.game self
  /\ Backend.mode self' = Backend.mode self
  /\ forall role,
      Backend.get_image role self' = Backend.get_image role self
      \/ (is_Some (Backend.get_image role self') /\ is_Some (Backend.get_path role self)).

(** The events that ask the user for a file. *)
Definition is_prompt (ev : Event) : bool :=
  match ev with FileDialog _ => true | _ => false end.
(** The events that show the user a message box. *)
Definition is_report (ev : Event) : bool :=
  match ev with MessageBox _ _ => true | _ => false end.

(** Neither a file dialog nor a message box. *)
Definition silent (ev : Event) : Prop := is_prompt ev = false /\ is_report ev = false.

(** The target an export works with: the one remembered, else the answer of the dialog. *)
Definition resolved_target (answer : string) (w : Gui.MainWindow) : option string :=
  match Gui.target w with
  | Some t => Some t
  | None => match answer with EmptyString => None | _ => Some answer end
  end.

(** What the [except] block prints and shows for [e]. *)
Definition failure_events (e : Exception) : list Event :=
  match e with
  | InterruptedError => [Print "The export was cancelled by the user."]
  | _ => [Print "The export failed!"; MessageBox "Failed to export!" (Gui.exception_text e)]
  end.

(** What [export] prints and shows to get a target. *)
Definition dialog_events (w : Gui.MainWindow) : list Event :=
  match Gui.target w with
  | None => [Print "Picking target"; FileDialog "Saving material..."]
  | Some _ => []
  end.

(** What [export] starts once the files are written, when the program
    starts. *)
Definition hijack_events (w : Gui.MainWindow) (name : string) : list Event :=
  match Gui.hijackTarget (Gui.config w) with
  | Some (String c s) => [Popen [String c s; "-hijack"; "+mat_reloadmaterial " +:+ name]]
  | _ => []
  end.

(** The exception [subprocess.Popen] raises for the program [export] is
    to start, [None] when it starts or when none is configured. *)
Definition hijack_refusal {host : Host} (w : Gui.MainWindow) (name : string)
  : option Exception :=
  match Gui.hijackTarget (Gui.config w) with
  | Some (String c s) =>
      refused (Popen [String c s; "-hijack"; "+mat_reloadmaterial " +:+ name])
  | _ => None
  end.






End Traces.

(** ** [QDataComboBox] and the older window *)

Module QDataComboBox.
(** The loop of [setCurrentData] from index [i] on, over the item data that are left. *)
Fixpoint find_data {A} `{EqDecision A} (data : A) (items : list A) (i : Z) : Z :=
  match items with
  | [] => (-1)%Z
  | item :: rest => if decide (data = item) then i else find_data data rest (i + 1)%Z
  end.

(** [setCurrentData(self, data)]: the index it hands to [setCurrentIndex]. *)
Definition setCurrentData {A} `{EqDecision A} (items : list A) (data : A) : Z :=
  find_data data items 0%Z.
End QDataComboBox.

Module OldGui.
Section OldGui.
Context `{CoreLib}.

(** The backend of the older window is not among the sources: its state and
    the four methods the window calls are parameters. *)
Variable Backend : Type.
Variable backend_pick : option string -> ImageRole -> M Backend (option QImage).
Variable backend_make_material : bool -> M Backend Material.
Variable backend_pick_vmt : string -> M Backend unit.
Variable backend_export : Material -> M Backend unit.

Record MainWindow := mkWindow {
  config : Gui.AppConfig;
  backend : Backend;
  progressBar : Z;
  exportButton : bool
}.

Definition set_backend (value : Backend) (self : MainWindow) : MainWindow :=
  {| config := config self; backend := value;
     progressBar := progressBar self; exportButton := exportButton self |}.

Definition set_progressBar (value : Z) (self : MainWindow) : MainWindow :=
  {| config := config self; backend := backend self;
     progressBar := value; exportButton := exportButton self |}.

Definition set_exportButton (value : bool) (self : MainWindow) : MainWindow :=
  {| config := config self; backend := backend self;
     progressBar := progressBar self; exportButton := value |}.

(** [self.backend.method(...)] *)
Definition on_backend {A} (m : M Backend A) : M MainWindow A :=
  on_member backend set_backend m.

(** [picked(self, kind, path, set_icon)] *)
Definition picked (kind : ImageRole) (path : option Pathlib.PurePath) : M MainWindow unit :=
  let* img := on_backend (backend_pick (option_map Pathlib.to_str path) kind) in
  effect (SetIcon img).

(** The [try] block of [export]; [answer] is what the file dialog returns. *)
Definition export_try (answer : string) : M MainWindow unit :=
  let* self := get in
  let* material := on_backend (backend_make_material (Gui.reloadOnExport (config self))) in
  modify (set_progressBar 50%Z) >>
  modify (set_progressBar 100%Z) >>
  effect (FileDialog "Saving material...") >>
  match answer with
  | EmptyString => raise InterruptedError
  | targetPath =>
      on_backend (backend_pick_vmt targetPath) >>
      on_backend (backend_export material)
  end.

(** [export(self)] *)
Definition export (answer : string) : M MainWindow unit :=
  effect (Print "Exporting...") >>
  modify (set_exportButton false) >>
  modify (set_progressBar 0%Z) >>
  try_finally
    (try_except (export_try answer)
       (fun e =>
          modify (set_progressBar 0%Z) >>
          match e with
          | InterruptedError => effect (Print "The export was cancelled by the user.")
          | _ =>
              effect (Print "The export failed!") >>
              effect (MessageBox "Failed to export!" (Gui.exception_text e))
          end))
    (modify (set_exportButton true)).

End OldGui.
End OldGui.

(** [data == self.itemData(i)] on the members of [GameTarget]. *)
#[export] Instance GameTarget_eq_dec : EqDecision GameTarget.
Proof. solve_decision. Defined.

(** ** Sample windows *)

Module Scenario.

(** The sample library over the sample disk. *)
Definition core : @CoreLib Sample.images := Sample.core Sample.disk.

(** A machine that refuses nothing. *)
Definition host : @Host Sample.images core := Sample.host Sample.disk [].

(** A machine on which the second texture cannot be saved. *)
Definition locked_host : @Host Sample.images core := Sample.host Sample.disk ["c_bump.vtf"].

(** The data of the items of a menu in which one value sits on two items. *)
Definition menu : list GameTarget := [V2007; VGMOD; V2011; VGMOD].

(** A window at rest, without a target. *)
Definition idle_window : @Gui.MainWindow Sample.images :=
  Sample.window Sample.store None false false.

(** A window that watches its files, with a target. *)
Definition watching_window : @Gui.MainWindow Sample.images :=
  Sample.window Sample.store (Some "/a/materials/b/c.vmt") false true.

(** The older window over the backend of the newer one. *)
Definition old_window : OldGui.MainWindow (@Backend.CoreBackend Sample.images) :=
  OldGui.mkWindow _
    {| Gui.reloadOnExport := false; Gui.hijackTarget := None |}
    Sample.store 0%Z true.

(** [export] of the newer backend as the older window calls it: for its
    effect only. *)
Definition old_backend_export (m : @Material Sample.images)
  : @M _ core (@Backend.CoreBackend Sample.images) unit :=
  @bind _ core _ _ _ (@Backend.export _ core host m) (fun _ => @ret _ core _ _ tt).

End Scenario.

(** * Properties *)

#[local] Arguments String.append : simpl nomatch.

(** ** The string and path functions on some inputs *)

Example path_parts_1 :
  Pathlib.parts (Pathlib.Path "/a/materials/b/c.vmt") = ["/"; "a"; "materials"; "b"; "c.vmt"].
Proof. reflexivity. Qed.

Example path_parts_2 :
  Pathlib.parts (Pathlib.Path "//a/./b//c/") = ["//"; "a"; "b"; "c"].
Proof. reflexivity. Qed.

Example path_parts_3 : Pathlib.parts (Pathlib.Path "///a") = ["/"; "a"].
Proof. reflexivity. Qed.

Example path_parts_4 : Pathlib.parts (Pathlib.Path "") = [].
Proof. reflexivity. Qed.

Example removesuffix_1 : PyStr.removesuffix "c.vmt" ".vmt" = "c".
Proof. reflexivity. Qed.

Example removesuffix_2 : PyStr.removesuffix "c.vmt.png" ".vmt" = "c.vmt.png".
Proof. reflexivity. Qed.

Example rsplit1_1 : PyStr.rsplit1 "/" "a/b/c" = ["a/b"; "c"].
Proof. reflexivity. Qed.

Example rsplit1_2 : PyStr.rsplit1 "/" "abc" = ["abc"].
Proof. reflexivity. Qed.

(** ** Facts about the string methods *)

Section StringFacts.

Lemma append_assoc (s1 s2 s3 : string) : (s1 +:+ s2) +:+ s3 = s1 +:+ (s2 +:+ s3).
Proof. induction s1 as [|c s1 IH]; simpl; [reflexivity | now rewrite IH]. Qed.

Lemma append_empty_r (s : string) : s +:+ "" = s.
Proof. induction s as [|c s IH]; simpl; [reflexivity | now rewrite IH]. Qed.

Lemma length_append (s1 s2 : string) :
  String.length (s1 +:+ s2) = String.length s1 + String.length s2.
Proof. induction s1 as [|c s1 IH]; simpl; [reflexivity | now rewrite IH]. Qed.

Lemma substring_prefix (p q : string) :
  String.substring 0 (String.length p) (p +:+ q) = p.
Proof.
  induction p as [|c p IH]; simpl.
  - now destruct q.
  - now rewrite IH.
Qed.

Lemma endswith_app (p suffix : string) : PyStr.endswith (p +:+ suffix) suffix = true.
Proof.
  induction p as [|c p IH]; simpl.
  - destruct suffix; simpl; [reflexivity |].
    now rewrite Ascii.eqb_refl, String.eqb_refl.
  - rewrite IH. apply orb_true_r.
Qed.

Lemma endswith_inv (s suffix : string) :
  PyStr.endswith s suffix = true -> exists p, s = p +:+ suffix.
Proof.
  induction s as [|c s IH]; simpl; intros Hends.
  - apply orb_true_iff in Hends as [Heq | Hf]; [|discriminate].
    exists "". destruct suffix; [reflexivity | discriminate].
  - apply orb_true_iff in Hends as [Heq | Hrec].
    + exists "". simpl. destruct suffix as [|d suffix]; [discriminate |].
      apply andb_prop in Heq as [Hc Hs].
      apply Ascii.eqb_eq in Hc. apply String.eqb_eq in Hs. congruence.
    + destruct (IH Hrec) as [p Hp]. exists (String c p). simpl. now rewrite Hp.
Qed.

Lemma removesuffix_app (p suffix : string) : PyStr.removesuffix (p +:+ suffix) suffix = p.
Proof.
  unfold PyStr.removesuffix. rewrite endswith_app, length_append.
  replace (String.length p + String.length suffix - String.length suffix)
    with (String.length p) by lia.
  apply substring_prefix.
Qed.

Lemma removesuffix_other (s suffix : string) :
  PyStr.endswith s suffix = false -> PyStr.removesuffix s suffix = s.
Proof. unfold PyStr.removesuffix. now intros ->. Qed.

(** What [removesuffix] leaves: the whole string, or the string without
    the suffix it ended with. *)
Lemma removesuffix_cases (s suffix : string) :
  (PyStr.endswith s suffix = false /\ PyStr.removesuffix s suffix = s)
  \/ (PyStr.endswith s suffix = true /\ s = PyStr.removesuffix s suffix +:+ suffix).
Proof.
  destruct (PyStr.endswith s suffix) eqn:Hends.
  - right. split; [reflexivity |].
    destruct (endswith_inv _ _ Hends) as [p ->]. now rewrite removesuffix_app.
  - left. split; [reflexivity |]. now apply removesuffix_other.
Qed.

End StringFacts.

(** ** The loop of [pick_vmt] *)

Section Scan.

Lemma slashed_app (l1 l2 : list string) :
  Backend.slashed (l1 ++ l2) = Backend.slashed l1 +:+ Backend.slashed l2.
Proof.
  induction l1 as [|c l1 IH]; simpl; [reflexivity |].
  now rewrite IH, !append_assoc.
Qed.

Lemma slashed_concat (l : list string) (s : string) :
  Backend.slashed l +:+ s = String.concat "/" (l ++ [s]).
Proof.
  induction l as [|c l IH]; [reflexivity |].
  cbn [Backend.slashed app]. rewrite !append_assoc, IH. cbn [String.concat].
  destruct (l ++ [s]) eqn:E; [now destruct l | reflexivity].
Qed.

Lemma scan_found (l rest : list string) (acc : string) :
  ~ In "materials" l ->
  Backend.scan (l ++ "materials" :: rest) acc = (Backend.slashed (rev l) +:+ acc, true).
Proof.
  revert acc. induction l as [|c l IH]; intros acc Hnot; simpl.
  - reflexivity.
  - destruct (String.eqb_spec c "materials") as [-> | Hne].
    + exfalso. apply Hnot. now left.
    + rewrite IH by (intros Hin; apply Hnot; now right).
      now rewrite slashed_app, append_assoc; simpl; rewrite !append_assoc.
Qed.

Lemma scan_not_found (l : list string) (acc : string) :
  ~ In "materials" l -> snd (Backend.scan l acc) = false.
Proof.
  revert acc. induction l as [|c l IH]; intros acc Hnot; simpl.
  - reflexivity.
  - destruct (String.eqb_spec c "materials") as [-> | Hne].
    + exfalso. apply Hnot. now left.
    + apply IH. intros Hin. apply Hnot. now right.
Qed.

Lemma material_name_under (pathStr : string) (pre between : list string) :
  removelast (Pathlib.parts (Pathlib.Path pathStr)) = pre ++ "materials" :: between ->
  ~ In "materials" between ->
  Backend.material_name pathStr =
  String.concat "/"
    (between ++ [PyStr.removesuffix (Pathlib.name (Pathlib.Path pathStr)) ".vmt"]).
Proof.
  intros Hparts Hnot. unfold Backend.material_name. rewrite Hparts.
  rewrite rev_app_distr. simpl. rewrite <- app_assoc. simpl.
  rewrite scan_found by (now rewrite <- in_rev).
  rewrite rev_involutive, append_empty_r. apply slashed_concat.
Qed.

Lemma material_name_plain (pathStr : string) :
  ~ In "materials" (removelast (Pathlib.parts (Pathlib.Path pathStr))) ->
  Backend.material_name pathStr =
  PyStr.removesuffix (Pathlib.name (Pathlib.Path pathStr)) ".vmt".
Proof.
  intros Hnot. unfold Backend.material_name.
  pose proof (scan_not_found (rev (removelast (Pathlib.parts (Pathlib.Path pathStr)))) "") as Hs.
  destruct (Backend.scan _ _) as [namePath useNamePath]. simpl in Hs.
  rewrite Hs; [reflexivity |]. now rewrite <- in_rev.
Qed.

(** The name always ends with what [removesuffix] left of the file name. *)
Lemma material_name_suffix (pathStr : string) :
  exists prefix,
    Backend.material_name pathStr =
    prefix +:+ PyStr.removesuffix (Pathlib.name (Pathlib.Path pathStr)) ".vmt".
Proof.
  unfold Backend.material_name.
  destruct (Backend.scan _ _) as [namePath [|]].
  - now exists namePath.
  - now exists "".
Qed.

End Scan.

(** ** The backend: decoding and fetching channels *)

Section BackendFacts.
Context `{Host}.
Import Backend.

Lemma get_path_set_image (r role : ImageRole) (v : option Image) (self : CoreBackend) :
  get_path r (set_image role v self) = get_path r self.
Proof. now destruct r. Qed.

Lemma get_image_set_image (r role : ImageRole) (v : option Image) (self : CoreBackend) :
  get_image r (set_image role v self) = if role_eqb r role then v else get_image r self.
Proof. now destruct r. Qed.

Lemma get_image_set_path (r role : ImageRole) (v : option string) (self : CoreBackend) :
  get_image r (set_path role v self) = get_image r self.
Proof. now destruct r. Qed.

Lemma get_path_set_path (r role : ImageRole) (v : option string) (self : CoreBackend) :
  get_path r (set_path role v self) = if role_eqb r role then v else get_path r self.
Proof. now destruct r. Qed.

Lemma role_eqb_refl (r : ImageRole) : role_eqb r r = true.
Proof. now destruct r. Qed.

Lemma role_eqb_eq (a b : ImageRole) : role_eqb a b = true <-> a = b.
Proof. destruct a, b; simpl; split; congruence. Qed.

(** [convert] decodes, then caches. *)
Lemma convert_run (p : string) (role : ImageRole) (self : CoreBackend) :
  convert p role self =
  match decode p with
  | Some r => (Ok r, set_image role (Some (snd r)) self, [])
  | None => (Raise (DecodeError p), self, [])
  end.
Proof.
  unfold convert, decode, bind, call, ret, raise, modify.
  destruct (PyStr.endswith p ".vtf" || PyStr.endswith p ".hdr").
  - now destruct (QtIOBackend_load p).
  - now destruct (QtIOBackend_load_qimage p).
Qed.

Lemma getImage_run (noCache : bool) (role : ImageRole) (self : CoreBackend) :
  getImage noCache role self =
  match channel noCache role self with
  | Some c => (Ok c, fetched noCache role c self, [])
  | None =>
      (Raise (DecodeError (match get_path role self with Some p => p | None => "" end)),
       self, [])
  end.
Proof.
  unfold getImage, channel, fetched. destruct noCache; unfold bind, get, ret; simpl.
  - destruct (get_path role self) as [p|]; [|reflexivity].
    rewrite convert_run. now destruct (decode p).
  - reflexivity.
Qed.

Lemma channel_fetched (noCache : bool) (r role : ImageRole) (c : option Image)
    (self : CoreBackend) :
  channel noCache r (fetched noCache role c self) = channel noCache r self.
Proof.
  unfold channel, fetched. destruct noCache; [|reflexivity].
  destruct c; [|reflexivity]. now rewrite get_path_set_image.
Qed.

Lemma mode_fetched (noCache : bool) (role : ImageRole) (c : option Image)
    (self : CoreBackend) : mode (fetched noCache role c self) = mode self.
Proof. unfold fetched. now destruct noCache, c. Qed.

Lemma game_fetched (noCache : bool) (role : ImageRole) (c : option Image)
    (self : CoreBackend) : game (fetched noCache role c self) = game self.
Proof. unfold fetched. now destruct noCache, c. Qed.

Lemma name_fetched (noCache : bool) (role : ImageRole) (c : option Image)
    (self : CoreBackend) : name (fetched noCache role c self) = name self.
Proof. unfold fetched. now destruct noCache, c. Qed.

Lemma fetched_cached (role : ImageRole) (c : option Image) (self : CoreBackend) :
  fetched false role c self = self.
Proof. reflexivity. Qed.

(** [make_material] on a complete channel set. *)
Lemma make_material_run (noCache : bool) (self : CoreBackend)
    (a r : Image) (om oe oo on oh : option Image) :
  channel noCache Albedo self = Some (Some a) ->
  channel noCache Roughness self = Some (Some r) ->
  channel noCache Metallic self = Some om ->
  channel noCache Emit self = Some oe ->
  channel noCache AO self = Some oo ->
  channel noCache Normal self = Some on ->
  channel noCache Height self = Some oh ->
  let metallic := or_else om (blank (img_size r) [0%Q]) in
  let normal := or_else on (blank (img_size r) [(1#2)%Q; (1#2)%Q; 1%Q]) in
  let height := or_else oh (blank (img_size normal) [(1#2)%Q]) in
  outcome_of (make_material noCache) self =
    Ok {| m_mode := mode self;
          m_target := game self;
          m_size := img_size normal;
          m_name := name self;
          m_albedo := normalize a None "RGB";
          m_roughness := normalize r (Some (img_size normal)) "L";
          m_metallic := normalize metallic (Some (img_size normal)) "L";
          m_emit := option_map (fun e => normalize e (Some (img_size a)) "L") oe;
          m_ao := option_map (fun o => normalize o (Some (img_size a)) "L") oo;
          m_normal := normalize normal None "RGB";
          m_height := Some (normalize height (Some (img_size normal)) "L") |}
  /\ events_of (make_material noCache) self = [Print "Constructing material..."]
  /\ (noCache = false -> state_after (make_material noCache) self = self).
Proof.
  intros Ha Hr Hm He Ho Hn Hh.
  unfold outcome_of, events_of, state_after, make_material, bind.
  rewrite getImage_run, Ha.
  rewrite getImage_run, ?channel_fetched, Hr.
  rewrite getImage_run, ?channel_fetched, Hm.
  rewrite getImage_run, ?channel_fetched, He.
  rewrite getImage_run, ?channel_fetched, Ho.
  rewrite getImage_run, ?channel_fetched, Hn.
  rewrite getImage_run, ?channel_fetched, Hh.
  cbn [effect get ret fst snd app].
  rewrite !mode_fetched, !game_fetched, !name_fetched.
  repeat split. now intros ->.
Qed.
End BackendFacts.

(** ** The isolated name *)

Section IsolatedName.

Lemma split_nonempty (sep : ascii) (s : string) : PyStr.split sep s <> [].
Proof.
  destruct s as [|c s]; simpl; [discriminate |].
  destruct (Ascii.eqb c sep); [discriminate |].
  destruct (PyStr.split sep s); discriminate.
Qed.

Lemma rsplit1_shape (sep : ascii) (s : string) :
  (PyStr.rsplit1 sep s = [s] /\ PyStr.contains sep s = false)
  \/ (exists h t, PyStr.rsplit1 sep s = [h; t]
                  /\ s = h +:+ String sep t /\ PyStr.contains sep t = false).
Proof.
  induction s as [|c s IH]; simpl.
  - left. split; reflexivity.
  - destruct IH as [[-> Hno] | (h & t & -> & Hs & Hno)].
    + destruct (Ascii.eqb_spec c sep) as [-> | Hne].
      * right. exists "", s. repeat split. exact Hno.
      * left. split; [reflexivity |]. simpl. exact Hno.
    + right. exists (String c h), t. repeat split; [|exact Hno].
      simpl. now rewrite Hs.
Qed.

Lemma last_split_no_sep (sep : ascii) (s : string) :
  PyStr.contains sep s = false -> PyStr.split sep s = [s].
Proof.
  induction s as [|c s IH]; simpl; intros Hno; [reflexivity |].
  apply orb_false_iff in Hno as [Hc Hs]. rewrite Hc, (IH Hs). reflexivity.
Qed.

Lemma split_app_sep (sep : ascii) (h t : string) :
  PyStr.split sep (h +:+ String sep t) = PyStr.split sep h ++ PyStr.split sep t.
Proof.
  induction h as [|c h IH]; simpl.
  - now rewrite Ascii.eqb_refl.
  - destruct (Ascii.eqb c sep); rewrite IH; [reflexivity |].
    pose proof (split_nonempty sep h) as Hne.
    now destruct (PyStr.split sep h).
Qed.

Lemma last_app_nonempty (l1 l2 : list string) (d : string) :
  l2 <> [] -> List.last (l1 ++ l2) d = List.last l2 d.
Proof.
  intros Hne. induction l1 as [|x l1 IH]; [reflexivity |].
  simpl. rewrite IH. destruct (l1 ++ l2) eqn:E; [|reflexivity].
  apply app_eq_nil in E as [_ ->]. congruence.
Qed.

Lemma last_split_app (sep : ascii) (h t : string) :
  List.last (PyStr.split sep (h +:+ String sep t)) "" = List.last (PyStr.split sep t) "".
Proof. rewrite split_app_sep. apply last_app_nonempty, split_nonempty. Qed.

(** [name.rsplit('/', 1)[-1]] is the last of the components of [name]
    between slashes, and has no slash in it. *)
Lemma isolated_name (s : string) :
  PyStr.item_last (PyStr.rsplit1 "/" s) = List.last (PyStr.split "/" s) ""
  /\ PyStr.contains "/" (PyStr.item_last (PyStr.rsplit1 "/" s)) = false.
Proof.
  unfold PyStr.item_last.
  destruct (rsplit1_shape "/" s) as [[-> Hno] | (h & t & -> & Hs & Hno)]; simpl.
  - rewrite (last_split_no_sep _ _ Hno). split; [reflexivity | exact Hno].
  - split; [| exact Hno]. rewrite Hs, last_split_app.
    now rewrite (last_split_no_sep _ _ Hno).
Qed.

End IsolatedName.

(** ** Assembling the material *)

Section MakeMaterial.
Context `{Host}.
Import Backend.

Lemma make_material_of_channels (noCache : bool) (self : CoreBackend)
    (cs : ImageRole -> option Image) (a r : Image) :
  (forall role, channel noCache role self = Some (cs role)) ->
  cs Albedo = Some a -> cs Roughness = Some r ->
  let metallic := or_else (cs Metallic) (blank (img_size r) [0%Q]) in
  let normal := or_else (cs Normal) (blank (img_size r) [(1#2)%Q; (1#2)%Q; 1%Q]) in
  let height := or_else (cs Height) (blank (img_size normal) [(1#2)%Q]) in
  outcome_of (make_material noCache) self =
    Ok {| m_mode := mode self;
          m_target := game self;
          m_size := img_size normal;
          m_name := name self;
          m_albedo := normalize a None "RGB";
          m_roughness := normalize r (Some (img_size normal)) "L";
          m_metallic := normalize metallic (Some (img_size normal)) "L";
          m_emit := option_map (fun e => normalize e (Some (img_size a)) "L") (cs Emit);
          m_ao := option_map (fun o => normalize o (Some (img_size a)) "L") (cs AO);
          m_normal := normalize normal None "RGB";
          m_height := Some (normalize height (Some (img_size normal)) "L") |}.
Proof.
  intros Hcs Ha Hr.
  apply make_material_run; rewrite Hcs; congruence.
Qed.

Lemma normal_at_reference (r : Image) (on : option Image) :
  img_size (or_else on (blank (img_size r) [(1#2)%Q; (1#2)%Q; 1%Q])) = reference_size r on.
Proof. destruct on; simpl; [reflexivity | apply blank_size]. Qed.

(** C1, as the code has it: the Material takes the reference size;
    Roughness, Metallic, Height and Normal are at the reference size;
    Albedo keeps its own size and Emit and AO, when present, are resized
    to the size of the Albedo channel; Albedo and Normal are RGB, the
    other channels L. *)
Theorem make_material_channel_sizes (noCache : bool) (self : CoreBackend)
    (cs : ImageRole -> option Image) (a r : Image) :
  (forall role, channel noCache role self = Some (cs role)) ->
  cs Albedo = Some a -> cs Roughness = Some r ->
  exists m,
    outcome_of (make_material noCache) self = Ok m
    /\ m_size m = reference_size r (cs Normal)
    /\ (img_size (m_roughness m) = reference_size r (cs Normal)
        /\ img_mode (m_roughness m) = "L")
    /\ (img_size (m_metallic m) = reference_size r (cs Normal)
        /\ img_mode (m_metallic m) = "L")
    /\ (img_size (m_normal m) = reference_size r (cs Normal)
        /\ img_mode (m_normal m) = "RGB")
    /\ (exists h, m_height m = Some h
                  /\ img_size h = reference_size r (cs Normal) /\ img_mode h = "L")
    /\ (img_size (m_albedo m) = img_size a /\ img_mode (m_albedo m) = "RGB")
    /\ (forall e, m_emit m = Some e -> img_size e = img_size a /\ img_mode e = "L")
    /\ (forall o, m_ao m = Some o -> img_size o = img_size a /\ img_mode o = "L")
    /\ (is_Some (m_emit m) <-> is_Some (cs Emit))
    /\ (is_Some (m_ao m) <-> is_Some (cs AO)).
Proof.
  intros Hcs Ha Hr. eexists.
  split; [exact (make_material_of_channels noCache self cs a r Hcs Ha Hr) |].
  cbn [m_size m_roughness m_metallic m_normal m_height m_albedo m_emit m_ao].
  rewrite !normalize_size, !normalize_size_default, !normalize_mode, !normal_at_reference.
  repeat match goal with |- _ /\ _ => split end; try reflexivity.
  - eexists. split; [reflexivity |]. now rewrite normalize_size, normalize_mode.
  - intros e He. destruct (cs Emit); simpl in He; [|discriminate].
    injection He as <-. now rewrite normalize_size, normalize_mode.
  - intros o Ho. destruct (cs AO); simpl in Ho; [|discriminate].
    injection Ho as <-. now rewrite normalize_size, normalize_mode.
  - destruct (cs Emit); simpl; split; intros [x Hx]; eauto; discriminate.
  - destruct (cs AO); simpl; split; intros [x Hx]; eauto; discriminate.
Qed.

(** C7: the channels that are left out. A missing Metallic is a flat 0.0
    scalar, a missing Normal a flat (0.5, 0.5, 1.0) colour and a missing
    Height a flat 0.5 scalar, each at the reference size; a missing Emit
    or AO stays missing. *)
Theorem make_material_defaults (noCache : bool) (self : CoreBackend)
    (cs : ImageRole -> option Image) (a r : Image) :
  (forall role, channel noCache role self = Some (cs role)) ->
  cs Albedo = Some a -> cs Roughness = Some r ->
  exists m,
    outcome_of (make_material noCache) self = Ok m
    /\ (cs Metallic = None ->
        img_flat (m_metallic m) [0%Q]
        /\ img_mode (m_metallic m) = "L"
        /\ img_size (m_metallic m) = reference_size r (cs Normal))
    /\ (cs Normal = None ->
        img_flat (m_normal m) [(1#2)%Q; (1#2)%Q; 1%Q]
        /\ img_mode (m_normal m) = "RGB"
        /\ img_size (m_normal m) = reference_size r (cs Normal))
    /\ (cs Height = None ->
        exists h, m_height m = Some h
                  /\ img_flat h [(1#2)%Q]
                  /\ img_mode h = "L"
                  /\ img_size h = reference_size r (cs Normal))
    /\ (cs Emit = None -> m_emit m = None)
    /\ (cs AO = None -> m_ao m = None).
Proof.
  intros Hcs Ha Hr. eexists.
  split; [exact (make_material_of_channels noCache self cs a r Hcs Ha Hr) |].
  cbn [m_metallic m_normal m_height m_emit m_ao].
  repeat match goal with |- _ /\ _ => split end.
  - intros Hm. rewrite Hm. simpl. repeat split.
    + apply normalize_flat; [apply blank_flat | reflexivity].
    + apply normalize_mode.
    + now rewrite normalize_size, normal_at_reference.
  - intros Hn. repeat split.
    + rewrite Hn. simpl. apply normalize_flat; [apply blank_flat | reflexivity].
    + apply normalize_mode.
    + now rewrite normalize_size_default, normal_at_reference.
  - intros Hh. eexists. split; [reflexivity |]. rewrite Hh. simpl. repeat split.
    + apply normalize_flat; [apply blank_flat | reflexivity].
    + apply normalize_mode.
    + now rewrite normalize_size, normal_at_reference.
  - now intros ->.
  - now intros ->.
Qed.

End MakeMaterial.

(** ** Picking and exporting *)

Section Pick.
Context `{Host}.
Import Backend.

Lemma pick_run (p : string) (role : ImageRole) (self : CoreBackend) :
  p <> "" ->
  pick (Some p) role self =
  match decode p with
  | Some r => (Ok (Some (fst r)), set_image role (Some (snd r)) (set_path role (Some p) self), [])
  | None => (Raise (DecodeError p), set_path role (Some p) self, [])
  end.
Proof.
  intros Hp. unfold pick, bind, modify, ret. cbn [truthy].
  destruct p as [|c p]; [congruence |].
  rewrite convert_run. now destruct (decode (String c p)).
Qed.

Lemma pick_clear (role : ImageRole) (self : CoreBackend) :
  pick None role self = (Ok None, set_image role None (set_path role None self), []).
Proof. reflexivity. Qed.

(** C3, as the code has it: a pick whose decoding fails raises, leaves
    every cached image and every other role's path as they were, and has
    already stored the new path for the role. *)
Theorem pick_failure_keeps_images (p : string) (role : ImageRole) (self : CoreBackend) :
  p <> "" -> decode p = None ->
  outcome_of (pick (Some p) role) self = Raise (DecodeError p)
  /\ events_of (pick (Some p) role) self = []
  /\ state_after (pick (Some p) role) self = set_path role (Some p) self
  /\ (forall r, get_image r (state_after (pick (Some p) role) self) = get_image r self)
  /\ (forall r, r <> role ->
                get_path r (state_after (pick (Some p) role) self) = get_path r self)
  /\ get_path role (state_after (pick (Some p) role) self) = Some p.
Proof.
  intros Hp Hdec. unfold outcome_of, events_of, state_after.
  rewrite (pick_run p role self Hp), Hdec. cbn [fst snd].
  repeat match goal with |- _ /\ _ => split end; try reflexivity.
  - intros r Hne. rewrite get_path_set_path.
    destruct (role_eqb r role) eqn:E; [|reflexivity].
    apply role_eqb_eq in E. congruence.
  - now rewrite get_path_set_path, role_eqb_refl.
Qed.

End Pick.

Section BackendExport.
Context `{Host}.
Import Backend.

Lemma for_each_effects {S A} (xs : list A) (f : A -> Event) (s : S) :
  for_each xs (fun x => effect (f x)) s = (Ok tt, s, List.map f xs).
Proof.
  induction xs as [|x xs IH]; [reflexivity |].
  cbn [for_each]. unfold bind at 1. cbn [effect]. rewrite IH. reflexivity.
Qed.

Lemma attempt_run {S} (ev : Event) (s : S) :
  attempt ev s =
  match refused ev with
  | Some e => (Raise e, s, [])
  | None => (Ok tt, s, [ev])
  end.
Proof. unfold attempt. now destruct (refused ev). Qed.

Lemma for_each_attempts {S A} (xs : list A) (f : A -> Event) (s : S) :
  for_each xs (fun x => attempt (f x)) s
  = (match refusal f xs with
     | Some e => Raise e
     | None => Ok tt
     end, s, List.map f (accepted f xs)).
Proof.
  induction xs as [|x xs IH]; [reflexivity |].
  cbn [for_each refusal accepted]. unfold bind at 1. rewrite attempt_run.
  destruct (refused (f x)) as [e|]; [reflexivity |].
  rewrite IH. reflexivity.
Qed.

Lemma accepted_all {A} (f : A -> Event) (xs : list A) :
  refusal f xs = None -> accepted f xs = xs.
Proof.
  induction xs as [|x xs IH]; [reflexivity |].
  cbn [refusal accepted]. destruct (refused (f x)); [discriminate |].
  intros Hrest. now rewrite IH.
Qed.

Lemma accepted_prefix {A} (f : A -> Event) (xs : list A) (e : Exception) :
  refusal f xs = Some e ->
  exists x rest,
    xs = accepted f xs ++ x :: rest /\ refused (f x) = Some e.
Proof.
  induction xs as [|x xs IH]; [discriminate |].
  cbn [refusal accepted]. destruct (refused (f x)) as [e'|] eqn:Hx.
  - intros [= ->]. now exists x, xs.
  - intros Hrest. destruct (IH Hrest) as (y & rest & Hxs & Hy).
    exists y, rest. split; [| exact Hy]. cbn [app]. now f_equal.
Qed.

(** The run of [export]: what it returns or raises and what it has done by
    then. It never assigns to the backend. *)
Lemma export_run (material : Material) (self : CoreBackend) :
  export material self =
  match path self with
  | None =>
      (Raise (AssertionError "Something has gone very very wrong. Find a developer!"),
       self, [])
  | Some dir =>
      let named := set_m_name (name self) material in
      let isolatedName := PyStr.item_last (PyStr.rsplit1 "/" (name self)) in
      match core_export named with
      | None => (Raise (CoreError "export"), self, [Print "Creating textures..."])
      | Some textures =>
          match core_make_vmt named with
          | None =>
              (Raise (CoreError "make_vmt"), self,
               [Print "Creating textures..."; Print "Making VMT..."])
          | Some vmt =>
              let save := fun texture =>
                SaveImage dir (texture_file isolatedName texture)
                  (tex_image texture) (vtf_version (m_target material)) in
              match refused (WriteText dir (isolatedName +:+ ".vmt") vmt) with
              | Some e =>
                  (Raise e, self,
                   [Print "Creating textures..."; Print "Making VMT...";
                    Print "Writing files..."])
              | None =>
                  (match refusal save textures with
                   | Some e => Raise e
                   | None => Ok named
                   end, self,
                   [Print "Creating textures..."; Print "Making VMT...";
                    Print "Writing files...";
                    WriteText dir (isolatedName +:+ ".vmt") vmt]
                   ++ List.map save (accepted save textures))
              end
          end
      end
  end.
Proof.
  unfold export, bind at 1. cbn [get].
  destruct (path self) as [dir|]; [| reflexivity].
  cbv zeta. unfold bind at 1. cbn [effect]. unfold bind at 1.
  destruct (core_export _) as [textures|]; [| reflexivity]. cbn [call ret].
  unfold bind at 1. cbn [effect]. unfold bind at 1.
  destruct (core_make_vmt _) as [vmt|]; [| reflexivity]. cbn [call ret].
  unfold bind at 1. cbn [effect]. unfold bind at 1. rewrite attempt_run.
  destruct (refused (WriteText _ _ _)) as [e|]; [reflexivity |].
  unfold bind at 1. rewrite for_each_attempts.
  cbn [m_target set_m_name].
  destruct (refusal _ textures) as [e|]; cbn [ret app]; [reflexivity |].
  now rewrite app_nil_r.
Qed.

(** An [export] that returns: nothing was missing and nothing was refused. *)
Lemma export_ok_inv (material m' : Material) (self : CoreBackend) :
  outcome_of (export material) self = Ok m' ->
  exists dir textures vmt,
    path self = Some dir
    /\ core_export (set_m_name (name self) material) = Some textures
    /\ core_make_vmt (set_m_name (name self) material) = Some vmt
    /\ export material self =
       (Ok (set_m_name (name self) material), self,
        [Print "Creating textures..."; Print "Making VMT..."; Print "Writing files...";
         WriteText dir (PyStr.item_last (PyStr.rsplit1 "/" (name self)) +:+ ".vmt") vmt]
        ++ List.map (fun texture =>
             SaveImage dir
               (texture_file (PyStr.item_last (PyStr.rsplit1 "/" (name self))) texture)
               (tex_image texture) (vtf_version (m_target material))) textures).
Proof.
  unfold outcome_of. rewrite export_run.
  destruct (path self) as [dir|]; [| discriminate].
  cbv zeta.
  destruct (core_export _) as [textures|]; [| discriminate].
  destruct (core_make_vmt _) as [vmt|]; [| discriminate].
  destruct (refused (WriteText _ _ _)) as [e|]; [discriminate |].
  destruct (refusal _ textures) as [e|] eqn:Hsave; [discriminate |].
  intros _. exists dir, textures, vmt. repeat split.
  now rewrite (accepted_all _ _ Hsave).
Qed.

Lemma export_keeps_backend (material : Material) (self : CoreBackend) :
  state_after (export material) self = self.
Proof.
  unfold state_after. rewrite export_run.
  destruct (path self) as [dir|]; [| reflexivity]. cbv zeta.
  destruct (core_export _) as [textures|]; [| reflexivity].
  destruct (core_make_vmt _) as [vmt|]; [| reflexivity].
  now destruct (refused (WriteText _ _ _)).
Qed.

Lemma files_written_map_save (dir : Pathlib.PurePath) (f : Texture -> string)
    (v : Z) (textures : list Texture) :
  files_written (List.map (fun t => SaveImage dir (f t) (tex_image t) v) textures)
  = List.map (fun t => (dir, f t)) textures.
Proof.
  induction textures as [|t ts IH]; [reflexivity |].
  cbn. now rewrite IH.
Qed.

(** C8: a successful export writes the descriptor, then the textures in
    their order, each under the output directory and named after the last
    component of the material name. *)
Theorem export_writes_descriptor_first (material m' : Material) (self : CoreBackend) :
  outcome_of (export material) self = Ok m' ->
  exists dir textures,
    path self = Some dir
    /\ core_export m' = Some textures
    /\ m_name m' = name self
    /\ files_written (events_of (export material) self)
       = (dir, List.last (PyStr.split "/" (m_name m')) "" +:+ ".vmt")
         :: List.map (fun texture =>
              (dir, List.last (PyStr.split "/" (m_name m')) "" +:+ tex_name texture +:+ ".vtf"))
            textures
    /\ PyStr.contains "/" (List.last (PyStr.split "/" (m_name m')) "") = false.
Proof.
  intros Hok.
  destruct (export_ok_inv _ _ _ Hok) as (dir & textures & vmt & Hdir & Htex & Hvmt & Hrun).
  unfold outcome_of, events_of in *.
  rewrite Hrun in *.
  cbn [fst snd] in *. injection Hok as <-.
  exists dir, textures. cbn [m_name set_m_name].
  destruct (isolated_name (name self)) as [Hiso Hno].
  rewrite <- Hiso. repeat split; try assumption.
  cbn [files_written written app].
  f_equal. apply files_written_map_save.
Qed.

(** C4, as the code has it: [export] assigns the backend's name to the
    name of the Material it is given and leaves its other fields as they
    are; it leaves the backend as it is, so that the Material of the next
    export is built by [make_material] from the same channel store. *)
Theorem export_sets_only_name (material m' : Material) (self : CoreBackend) :
  outcome_of (export material) self = Ok m' ->
  m_name m' = name self
  /\ m_mode m' = m_mode material
  /\ m_target m' = m_target material
  /\ m_size m' = m_size material
  /\ m_albedo m' = m_albedo material
  /\ m_roughness m' = m_roughness material
  /\ m_metallic m' = m_metallic material
  /\ m_emit m' = m_emit material
  /\ m_ao m' = m_ao material
  /\ m_normal m' = m_normal material
  /\ m_height m' = m_height material
  /\ state_after (export material) self = self
  /\ (forall noCache,
        make_material noCache (state_after (export material) self)
        = make_material noCache self).
Proof.
  intros Hok.
  destruct (export_ok_inv _ _ _ Hok) as (dir & textures & vmt & Hdir & Htex & Hvmt & Hrun).
  rewrite export_keeps_backend. unfold outcome_of in Hok.
  rewrite Hrun in Hok.
  cbn [fst] in Hok. injection Hok as <-. repeat split.
Qed.

End BackendExport.

(** ** The export slot and its guard *)

Section GuiFacts.
Context `{Host}.
Import Gui.

Lemma export_guarded (n : nat) (pending : list Trigger) (answer : string) (w : MainWindow) :
  exporting w = true -> export n pending answer w = (Ok tt, w, []).
Proof.
  intros Hexp. destruct n; cbn [export]; unfold bind at 1; cbn [get]; now rewrite Hexp.
Qed.

Lemma export_as_guarded (m : M MainWindow unit) (w : MainWindow) :
  exporting w = true -> export_as_of m w = (Ok tt, w, []).
Proof. intros Hexp. unfold export_as_of, bind at 1. cbn [get]. now rewrite Hexp. Qed.

Lemma pending_guarded (n : nat) (pending : list Trigger) (answer : string) (w : MainWindow) :
  exporting w = true ->
  for_each pending (fun t =>
    match t with
    | ExportAsAction => export_as_of (export n [] answer)
    | ExportAction | CooldownTimeout => export n [] answer
    end) w = (Ok tt, w, []).
Proof.
  intros Hexp. induction pending as [|t rest IH]; [reflexivity |].
  cbn [for_each]. unfold bind at 1.
  destruct t; rewrite ?export_guarded, ?export_as_guarded by assumption;
    now rewrite IH.
Qed.

Lemma export_unguarded (n : nat) (pending : list Trigger) (answer : string) (w : MainWindow) :
  exporting w = false ->
  export n pending answer w =
  match try_except (export_try answer) export_except (entered w) with
  | (r, w', evs) => (r, finished w', Print "Exporting..." :: evs)
  end.
Proof.
  intros Hexp.
  assert (Hin : exporting (entered w) = true) by reflexivity.
  destruct n; cbn [export]; unfold bind at 1; cbn [get]; rewrite Hexp.
  - unfold bind, modify, effect, ret, try_finally, export_finally. cbn [app].
    fold (entered w).
    destruct (try_except _ _ _) as [[r w'] evs]. unfold bind, modify. cbn.
    now rewrite app_nil_r.
  - unfold bind at 1. cbn [modify]. unfold bind at 1. cbn [effect].
    unfold bind at 1. cbn [modify]. unfold bind at 1. cbn [modify].
    unfold bind at 1. fold (entered w). rewrite (pending_guarded n pending answer _ Hin).
    unfold try_finally, export_finally.
    destruct (try_except _ _ _) as [[r w'] evs]. unfold bind, modify. cbn.
    now rewrite app_nil_r.
Qed.
End GuiFacts.

(** ** Missing channels, re-entry and the watch set *)

Section MissingChannel.
Context `{Host}.

Lemma make_material_missing (noCache : bool) (b : Backend.CoreBackend)
    (oa or_ : option Image) :
  Backend.channel noCache Albedo b = Some oa ->
  Backend.channel noCache Roughness b = Some or_ ->
  oa = None \/ or_ = None ->
  exists msg b',
    Backend.make_material noCache b = (Raise (AssertionError msg), b', []).
Proof.
  intros Ha Hr Hmiss. unfold Backend.make_material, bind at 1.
  rewrite getImage_run, Ha.
  destruct oa as [a|]; [|eauto].
  unfold bind at 1. rewrite getImage_run, channel_fetched, Hr.
  destruct or_ as [r|]; [|eauto].
  destruct Hmiss; discriminate.
Qed.

Lemma export_try_raises (answer : string) (w : Gui.MainWindow) (e : Exception)
    (b' : Backend.CoreBackend) (evs : list Event) :
  Backend.make_material (Gui.reloadOnExport (Gui.config w)) (Gui.backend w) = (Raise e, b', evs) ->
  Gui.export_try answer w = (Raise e, Gui.set_backend b' w, evs).
Proof.
  intros Hmm. unfold Gui.export_try, bind at 1. cbn [get].
  unfold bind at 1, Gui.on_backend, on_member. now rewrite Hmm.
Qed.

(** C5: when Albedo or Roughness is missing from the channel set,
    [make_material] fails on its assertion with nothing done, and the
    export slot that called it reports the failure and writes no file. *)
Theorem missing_channel_aborts_export (w : Gui.MainWindow)
    (oa or_ : option Image)
    (n : nat) (pending : list Gui.Trigger) (answer : string) :
  Backend.channel (Gui.reloadOnExport (Gui.config w)) Albedo (Gui.backend w) = Some oa ->
  Backend.channel (Gui.reloadOnExport (Gui.config w)) Roughness (Gui.backend w) = Some or_ ->
  oa = None \/ or_ = None ->
  exists msg,
    outcome_of (Backend.make_material (Gui.reloadOnExport (Gui.config w))) (Gui.backend w)
    = Raise (AssertionError msg)
    /\ events_of (Backend.make_material (Gui.reloadOnExport (Gui.config w))) (Gui.backend w)
       = []
    /\ files_written (events_of (Gui.export n pending answer) w) = []
    /\ (Gui.exporting w = false ->
        events_of (Gui.export n pending answer) w
        = [Print "Exporting..."; Print "The export failed!";
           MessageBox "Failed to export!" msg]).
Proof.
  intros Ha Hr Hmiss.
  destruct (make_material_missing _ _ _ _ Ha Hr Hmiss) as (msg & b' & Hmm).
  exists msg. unfold outcome_of, events_of. rewrite Hmm. cbn [fst snd].
  assert (Hrun : Gui.exporting w = false ->
                 snd (Gui.export n pending answer w)
                 = [Print "Exporting..."; Print "The export failed!";
                    MessageBox "Failed to export!" msg]).
  { intros Hexp. rewrite (export_unguarded n pending answer w Hexp).
    unfold try_except.
    rewrite (export_try_raises answer (Gui.entered w) _ b' [] Hmm).
    reflexivity. }
  repeat split; [| exact Hrun].
  destruct (Gui.exporting w) eqn:Hexp.
  - now rewrite export_guarded.
  - now rewrite Hrun.
Qed.

(** C6: with the flag set, each of the three triggers leaves the window as
    it is and does nothing; and the triggers that arrive while an export
    is being processed change nothing of that export. *)
Theorem export_in_progress_is_noop (t : Gui.Trigger) (n : nat)
    (pending : list Gui.Trigger) (answer : string) (w : Gui.MainWindow) :
  (Gui.exporting w = true -> Gui.dispatch t n pending answer w = (Ok tt, w, []))
  /\ Gui.export n pending answer w = Gui.export 0 [] answer w.
Proof.
  split.
  - intros Hexp. destruct t; cbn [Gui.dispatch]; unfold Gui.export_as;
      now rewrite ?export_guarded, ?export_as_guarded.
  - destruct (Gui.exporting w) eqn:Hexp.
    + now rewrite !export_guarded.
    + now rewrite !export_unguarded.
Qed.

End MissingChannel.

Section Watch.
Context `{Host}.

Lemma stored_paths_spec (b : Backend.CoreBackend) (p : string) :
  p ∈ Gui.stored_paths b <-> exists role, Backend.get_path role b = Some p.
Proof.
  unfold Gui.stored_paths. rewrite list_elem_of_omap. split.
  - intros (x & Hin & Hx). unfold id in Hx. subst x.
    repeat (apply elem_of_cons in Hin as [Hin | Hin];
            [first [ now exists Albedo | now exists Roughness | now exists Metallic
                   | now exists Emit | now exists AO | now exists Normal
                   | now exists Height ] |]).
    now apply elem_of_nil in Hin.
  - intros [role Hrole]. exists (Some p). split; [|reflexivity].
    rewrite <- Hrole. destruct role; cbn [Backend.get_path]; set_solver.
Qed.

(** The stored paths that [addPaths] takes. *)
Lemma watched_paths_spec (b : Backend.CoreBackend) (p : string) :
  p ∈ List.filter watchable (Gui.stored_paths b)
  <-> watchable p = true /\ exists role, Backend.get_path role b = Some p.
Proof.
  rewrite list_elem_of_In, filter_In, <- list_elem_of_In, stored_paths_spec. tauto.
Qed.

Lemma reset_watch_run (w : Gui.MainWindow) :
  Gui.watching w = true ->
  outcome_of Gui.reset_watch w = Ok tt
  /\ Gui.backend (state_after Gui.reset_watch w) = Gui.backend w
  /\ Gui.watcher (state_after Gui.reset_watch w)
     = list_to_set (List.filter watchable (Gui.stored_paths (Gui.backend w))).
Proof.
  intros Hw. unfold outcome_of, state_after, Gui.reset_watch.
  unfold Gui.stop_watch, Gui.start_watch, bind, modify, effect, get, ret.
  rewrite Hw.
  cbn [negb fst snd Gui.backend Gui.watcher Gui.set_watcher Gui.set_watchAction].
  split; [reflexivity |]. split; [reflexivity |].
  unfold Gui.addPaths, Gui.removePaths, Gui.files.
  rewrite list_to_set_elements_L, difference_diag_L. apply (left_id_L ∅ (∪)).
Qed.

(** The watched files after a pick that returns while watching. *)
Lemma picked_watcher (kind : ImageRole) (path : option Pathlib.PurePath)
    (w : Gui.MainWindow) :
  Gui.watching w = true ->
  outcome_of (Gui.picked kind path) w = Ok tt ->
  Gui.watcher (state_after (Gui.picked kind path) w)
  = list_to_set
      (List.filter watchable
         (Gui.stored_paths (Gui.backend (state_after (Gui.picked kind path) w)))).
Proof.
  intros Hw. unfold outcome_of, state_after, Gui.picked, bind at 1 3 5.
  unfold Gui.on_backend, on_member.
  destruct (Backend.pick _ kind (Gui.backend w)) as [[[img|e] b'] evs];
    [|discriminate].
  intros _. unfold bind at 1 2.
  pose proof (reset_watch_run (Gui.set_backend b' w) Hw) as (Hr & Hb & Hset).
  unfold outcome_of, state_after in Hr, Hb, Hset.
  destruct (Gui.reset_watch (Gui.set_backend b' w)) as [[r w'] evs'].
  cbn [fst snd] in *. subst r. cbn [effect fst snd]. now rewrite Hset, Hb.
Qed.

(** C9, as the code has it: a pick or clear that returns while watching
    leaves the watcher with the stored paths that name a file that exists,
    all of them and nothing else; a stored path whose file is missing is
    not watched. Where every stored path names such a file, the watcher
    holds the stored paths, all of them and no other. *)
Theorem picked_recomputes_watch_set (kind : ImageRole)
    (path : option Pathlib.PurePath) (w : Gui.MainWindow) :
  Gui.watching w = true ->
  outcome_of (Gui.picked kind path) w = Ok tt ->
  Gui.watcher (state_after (Gui.picked kind path) w)
  = list_to_set
      (List.filter watchable
         (Gui.stored_paths (Gui.backend (state_after (Gui.picked kind path) w))))
  /\ (forall p : string,
        p ∈ Gui.watcher (state_after (Gui.picked kind path) w)
        <-> watchable p = true
            /\ exists role,
                Backend.get_path role (Gui.backend (state_after (Gui.picked kind path) w))
                = Some p)
  /\ ((forall role p,
         Backend.get_path role (Gui.backend (state_after (Gui.picked kind path) w)) = Some p ->
         watchable p = true) ->
      forall p : string,
        p ∈ Gui.watcher (state_after (Gui.picked kind path) w)
        <-> exists role,
            Backend.get_path role (Gui.backend (state_after (Gui.picked kind path) w))
            = Some p).
Proof.
  intros Hw Hok. pose proof (picked_watcher kind path w Hw Hok) as Heq.
  assert (Hmem : forall p : string,
    p ∈ Gui.watcher (state_after (Gui.picked kind path) w)
    <-> watchable p = true
        /\ exists role,
            Backend.get_path role (Gui.backend (state_after (Gui.picked kind path) w))
            = Some p).
  { intros p. rewrite Heq, elem_of_list_to_set. apply watched_paths_spec. }
  split; [exact Heq |]. split; [exact Hmem |].
  intros Hall p. rewrite Hmem. split.
  - now intros [_ Hrole].
  - intros [role Hrole]. split; [exact (Hall role p Hrole) | now exists role].
Qed.

End Watch.

(** ** Resolving the material name *)

Section PickVmt.
Context `{Host}.

Lemma pick_vmt_run (pathStr : string) (self : Backend.CoreBackend) :
  Backend.pick_vmt pathStr self =
  (Ok tt,
   Backend.set_target (Pathlib.parent (Pathlib.Path pathStr))
     (Backend.material_name pathStr) self,
   []).
Proof. reflexivity. Qed.

(** C2, as the code has it: below the nearest ['materials'] ancestor the
    name is the components after it and the file name, joined with
    slashes; without such an ancestor it is the file name; in both the
    file name has lost a final ['.vmt'] and nothing else. The output
    directory is the parent of the path. *)
Theorem pick_vmt_material_name (pathStr : string) (self : Backend.CoreBackend)
    (pre between : list string) :
  (removelast (Pathlib.parts (Pathlib.Path pathStr)) = pre ++ "materials" :: between ->
   ~ In "materials" between ->
   Backend.name (state_after (Backend.pick_vmt pathStr) self)
   = String.concat "/"
       (between ++ [PyStr.removesuffix (Pathlib.name (Pathlib.Path pathStr)) ".vmt"]))
  /\ (~ In "materials" (removelast (Pathlib.parts (Pathlib.Path pathStr))) ->
      Backend.name (state_after (Backend.pick_vmt pathStr) self)
      = PyStr.removesuffix (Pathlib.name (Pathlib.Path pathStr)) ".vmt")
  /\ Backend.path (state_after (Backend.pick_vmt pathStr) self)
     = Some (Pathlib.parent (Pathlib.Path pathStr)).
Proof.
  unfold state_after. rewrite pick_vmt_run. cbn [fst snd Backend.name Backend.path Backend.set_target].
  split; [| split; [| reflexivity]].
  - apply material_name_under.
  - apply material_name_plain.
Qed.

(** The two parts of the name: a prefix that the folders decide, and what
    [removesuffix] left of the file name. *)
Lemma material_name_parts (pathStr : string) :
  exists prefix,
    Backend.material_name pathStr
    = prefix +:+ PyStr.removesuffix (Pathlib.name (Pathlib.Path pathStr)) ".vmt"
    /\ (forall pre between,
          removelast (Pathlib.parts (Pathlib.Path pathStr)) = pre ++ "materials" :: between ->
          ~ In "materials" between ->
          prefix = Backend.slashed between)
    /\ (~ In "materials" (removelast (Pathlib.parts (Pathlib.Path pathStr))) ->
        prefix = "").
Proof.
  unfold Backend.material_name.
  destruct (Backend.scan (rev (removelast (Pathlib.parts (Pathlib.Path pathStr)))) "")
    as [namePath useNamePath] eqn:Hscan.
  destruct useNamePath.
  - exists namePath. split; [reflexivity |]. split.
    + intros pre between Hparts Hnot. rewrite Hparts in Hscan.
      rewrite rev_app_distr in Hscan. simpl in Hscan. rewrite <- app_assoc in Hscan.
      simpl in Hscan. rewrite scan_found in Hscan by (now rewrite <- in_rev).
      rewrite rev_involutive, append_empty_r in Hscan. congruence.
    + intros Hnot.
      pose proof (scan_not_found (rev (removelast (Pathlib.parts (Pathlib.Path pathStr)))) "")
        as Hs.
      rewrite Hscan in Hs. cbn [snd] in Hs.
      discriminate Hs. now rewrite <- in_rev.
  - exists "". split; [reflexivity |]. split; [| reflexivity].
    intros pre between Hparts Hnot. rewrite Hparts in Hscan.
    rewrite rev_app_distr in Hscan. simpl in Hscan. rewrite <- app_assoc in Hscan.
    simpl in Hscan. rewrite scan_found in Hscan by (now rewrite <- in_rev).
    discriminate Hscan.
Qed.

(** C10: the name is a prefix that the folders alone decide, followed by
    the file name: the whole file name, extension included, when it does
    not end in ['.vmt'], and the file name without that one final ['.vmt'],
    and with everything before it, when it does. *)
Theorem pick_vmt_strips_only_vmt (pathStr : string) (self : Backend.CoreBackend) :
  exists prefix stem,
    Backend.name (state_after (Backend.pick_vmt pathStr) self) = prefix +:+ stem
    /\ (PyStr.endswith (Pathlib.name (Pathlib.Path pathStr)) ".vmt" = false ->
        stem = Pathlib.name (Pathlib.Path pathStr))
    /\ (PyStr.endswith (Pathlib.name (Pathlib.Path pathStr)) ".vmt" = true ->
        Pathlib.name (Pathlib.Path pathStr) = stem +:+ ".vmt")
    /\ (forall pre between,
          removelast (Pathlib.parts (Pathlib.Path pathStr)) = pre ++ "materials" :: between ->
          ~ In "materials" between ->
          prefix = Backend.slashed between)
    /\ (~ In "materials" (removelast (Pathlib.parts (Pathlib.Path pathStr))) ->
        prefix = "").
Proof.
  unfold state_after. rewrite pick_vmt_run. cbn [fst snd Backend.name Backend.set_target].
  destruct (material_name_parts pathStr) as (prefix & Hname & Hunder & Hplain).
  exists prefix, (PyStr.removesuffix (Pathlib.name (Pathlib.Path pathStr)) ".vmt").
  split; [exact Hname |].
  destruct (removesuffix_cases (Pathlib.name (Pathlib.Path pathStr)) ".vmt")
    as [[Hends Hsame] | [Hends Hcut]].
  - split; [intros _; exact Hsame |]. split; [congruence |]. now split.
  - split; [congruence |]. split; [intros _; exact Hcut |]. now split.
Qed.

End PickVmt.

(** ** The theorems on the sample library *)

Lemma pick_vmt_material_name_witness :
  Backend.name (state_after (@Backend.pick_vmt _ (Sample.core Sample.disk) "/a/materials/b/c.vmt")
                  Sample.empty_backend) = "b/c"
  /\ Backend.name (state_after (@Backend.pick_vmt _ (Sample.core Sample.disk) "/a/b/c.vmt")
                     Sample.empty_backend) = "c".
Proof.
  split.
  - apply (proj1 (@pick_vmt_material_name _ (Sample.core Sample.disk)
                    "/a/materials/b/c.vmt" Sample.empty_backend ["/"; "a"] ["b"])).
    + reflexivity.
    + simpl. intros [Hb | []]. discriminate Hb.
  - apply (proj1 (proj2 (@pick_vmt_material_name _ (Sample.core Sample.disk)
                    "/a/b/c.vmt" Sample.empty_backend [] []))).
    simpl. intros [Hb | [Hb | [Hb | []]]]; discriminate Hb.
Defined.

(** C2 as it is worded, with the extension of the file name stripped, fails
    on a file that is not a [.vmt]: the name keeps the extension. *)
Lemma pick_vmt_keeps_other_extension :
  ~ In "materials" (removelast (Pathlib.parts (Pathlib.Path "/a/b/c.png")))
  /\ Pathlib.stem_of (Pathlib.name (Pathlib.Path "/a/b/c.png")) = "c"
  /\ Backend.name (state_after (@Backend.pick_vmt _ (Sample.core Sample.disk) "/a/b/c.png")
                     Sample.empty_backend) = "c.png"
  /\ Backend.name (state_after (@Backend.pick_vmt _ (Sample.core Sample.disk) "/a/b/c.png")
                     Sample.empty_backend)
     <> Pathlib.stem_of (Pathlib.name (Pathlib.Path "/a/b/c.png")).
Proof.
  repeat split.
  - simpl. intros [Hb | [Hb | [Hb | []]]]; discriminate Hb.
  - discriminate.
Qed.

Lemma pick_vmt_strips_only_vmt_witness :
  Backend.name (state_after (@Backend.pick_vmt _ (Sample.core Sample.disk) "/a/materials/b/c.png")
                  Sample.empty_backend) = "b/c.png"
  /\ exists stem,
      Backend.name (state_after (@Backend.pick_vmt _ (Sample.core Sample.disk)
                                   "/a/materials/b/c.tar.vmt")
                      Sample.empty_backend) = "b/" +:+ stem
      /\ "c.tar.vmt" = stem +:+ ".vmt".
Proof.
  split.
  - destruct (@pick_vmt_strips_only_vmt _ (Sample.core Sample.disk)
                "/a/materials/b/c.png" Sample.empty_backend)
      as (prefix & stem & Hname & Hother & _ & Hunder & _).
    rewrite Hname, (Hother eq_refl), (Hunder ["/"; "a"] ["b"] eq_refl).
    + reflexivity.
    + simpl. intros [Hb | []]. discriminate Hb.
  - destruct (@pick_vmt_strips_only_vmt _ (Sample.core Sample.disk)
                "/a/materials/b/c.tar.vmt" Sample.empty_backend)
      as (prefix & stem & Hname & _ & Hvmt & Hunder & _).
    exists stem. rewrite Hname, (Hunder ["/"; "a"] ["b"] eq_refl).
    + split; [reflexivity | exact (Hvmt eq_refl)].
    + simpl. intros [Hb | []]. discriminate Hb.
Defined.

Example make_material_store :
  outcome_of (@Backend.make_material _ (Sample.core Sample.disk) false) Sample.store
  = Ok Sample.material.
Proof. reflexivity. Qed.

Lemma make_material_channel_sizes_witness :
  exists m,
    outcome_of (@Backend.make_material _ (Sample.core Sample.disk) false) Sample.store = Ok m
    /\ m_size m = (2, 2)%Z
    /\ @img_size Sample.images (m_albedo m) = (4, 4)%Z.
Proof.
  destruct (@make_material_channel_sizes _ (Sample.core Sample.disk) false Sample.store
              (fun role => Backend.get_image role Sample.store)
              (Sample.colour 4 4) (Sample.grey 2 2)
              (fun role => eq_refl) eq_refl eq_refl)
    as (m & Hm & Hsize & _ & _ & _ & _ & [Halb _] & _).
  exists m. split; [exact Hm |]. split; [exact Hsize | exact Halb].
Defined.

(** C1 as it is worded fails on a store whose Albedo is larger than its
    Roughness: the reference size is 2 x 2, and the Albedo and Emit channels
    of the Material are 4 x 4. *)
Lemma make_material_emit_at_albedo_size :
  exists m e,
    outcome_of (@Backend.make_material _ (Sample.core Sample.disk) false) Sample.store = Ok m
    /\ m_emit m = Some e
    /\ @Backend.reference_size Sample.images (Sample.grey 2 2)
         (Backend.get_image Normal Sample.store) = (2, 2)%Z
    /\ @img_size Sample.images e = (4, 4)%Z
    /\ @img_size Sample.images (m_albedo m) = (4, 4)%Z
    /\ @img_size Sample.images e
       <> @Backend.reference_size Sample.images (Sample.grey 2 2)
            (Backend.get_image Normal Sample.store).
Proof.
  exists Sample.material, (Sample.bitmap (4, 4)%Z "L" None).
  repeat split. discriminate.
Qed.

Lemma make_material_defaults_witness :
  exists m,
    outcome_of (@Backend.make_material _ (Sample.core Sample.disk) false) Sample.store = Ok m
    /\ @img_flat Sample.images (m_metallic m) [0%Q]
    /\ m_ao m = None.
Proof.
  destruct (@make_material_defaults _ (Sample.core Sample.disk) false Sample.store
              (fun role => Backend.get_image role Sample.store)
              (Sample.colour 4 4) (Sample.grey 2 2)
              (fun role => eq_refl) eq_refl eq_refl)
    as (m & Hm & Hmet & _ & _ & _ & Hao).
  exists m. split; [exact Hm |]. split; [apply Hmet | apply Hao]; reflexivity.
Defined.

Lemma pick_failure_keeps_images_witness :
  outcome_of (@Backend.pick _ (Sample.core Sample.disk) (Some "nothere.png") Albedo) Sample.store
  = Raise (DecodeError "nothere.png")
  /\ Backend.albedo
       (state_after (@Backend.pick _ (Sample.core Sample.disk) (Some "nothere.png") Albedo)
          Sample.store)
     = Some (Sample.colour 4 4).
Proof.
  destruct (@pick_failure_keeps_images _ (Sample.core Sample.disk) "nothere.png" Albedo
              Sample.store ltac:(discriminate) eq_refl)
    as (Hout & _ & _ & Himg & _).
  split; [exact Hout | exact (Himg Albedo)].
Defined.

(** C3 as it is worded fails: after the failed pick the path stored for the
    role is the new one. *)
Lemma pick_failure_stores_path :
  @Backend.decode _ (Sample.core Sample.disk) "nothere.png" = None
  /\ outcome_of (@Backend.pick _ (Sample.core Sample.disk) (Some "nothere.png") Albedo)
       Sample.store
     = Raise (DecodeError "nothere.png")
  /\ Backend.get_path Albedo Sample.store = Some "albedo.png"
  /\ Backend.get_path Albedo
       (state_after (@Backend.pick _ (Sample.core Sample.disk) (Some "nothere.png") Albedo)
          Sample.store)
     = Some "nothere.png"
  /\ Backend.get_path Albedo
       (state_after (@Backend.pick _ (Sample.core Sample.disk) (Some "nothere.png") Albedo)
          Sample.store)
     <> Backend.get_path Albedo Sample.store.
Proof. repeat split. discriminate. Qed.

Lemma export_writes_descriptor_first_witness :
  files_written (events_of (@Backend.export _ _ (Sample.host Sample.disk []) Sample.material) Sample.targeted)
  = [ (Pathlib.mkPath "/" ["a"; "materials"; "b"], "c.vmt");
      (Pathlib.mkPath "/" ["a"; "materials"; "b"], "c_albedo.vtf");
      (Pathlib.mkPath "/" ["a"; "materials"; "b"], "c_bump.vtf") ].
Proof.
  destruct (@export_writes_descriptor_first _ _ (Sample.host Sample.disk []) Sample.material
              (set_m_name "b/c" Sample.material) Sample.targeted eq_refl)
    as (dir & textures & Hdir & Htex & _ & Hfiles & _).
  injection Hdir as <-. injection Htex as <-. exact Hfiles.
Defined.

Lemma export_sets_only_name_witness :
  m_name (set_m_name "b/c" Sample.material) = Backend.name Sample.targeted
  /\ m_albedo (set_m_name "b/c" Sample.material) = m_albedo Sample.material.
Proof.
  destruct (@export_sets_only_name _ _ (Sample.host Sample.disk []) Sample.material
              (set_m_name "b/c" Sample.material) Sample.targeted eq_refl)
    as (Hname & _ & _ & _ & Halb & _).
  split; [exact Hname | exact Halb].
Defined.

(** C4 as it is worded fails: [export] changes the name of the Material
    that [make_material] returned. *)
Lemma export_renames_material :
  outcome_of (@Backend.make_material _ (Sample.core Sample.disk) false) Sample.store
  = Ok Sample.material
  /\ exists m',
      outcome_of (@Backend.export _ _ (Sample.host Sample.disk []) Sample.material) Sample.targeted = Ok m'
      /\ m_name Sample.material = "ThisShouldNeverAppear"
      /\ m_name m' = "b/c"
      /\ m' <> Sample.material.
Proof.
  split; [reflexivity |]. eexists. repeat split. discriminate.
Qed.

Lemma missing_channel_aborts_export_witness :
  files_written
    (events_of (@Gui.export _ _ (Sample.host Sample.disk []) 1 [Gui.CooldownTimeout] "/a/b/c.vmt")
       (Sample.window Sample.empty_backend None false false))
  = [].
Proof.
  destruct (@missing_channel_aborts_export _ _ (Sample.host Sample.disk [])
              (Sample.window Sample.empty_backend None false false)
              None None 1 [Gui.CooldownTimeout] "/a/b/c.vmt"
              eq_refl eq_refl (or_introl eq_refl))
    as (msg & _ & _ & Hfiles & _).
  exact Hfiles.
Defined.

Lemma export_in_progress_is_noop_witness :
  @Gui.dispatch _ _ (Sample.host Sample.disk []) Gui.CooldownTimeout 1 [Gui.ExportAction]
    "/a/b/c.vmt" (Sample.window Sample.store (Some "/a/b/c.vmt") true true)
  = (Ok tt, Sample.window Sample.store (Some "/a/b/c.vmt") true true, []).
Proof.
  apply (proj1 (@export_in_progress_is_noop _ _ (Sample.host Sample.disk []) Gui.CooldownTimeout
                  1 [Gui.ExportAction] "/a/b/c.vmt"
                  (Sample.window Sample.store (Some "/a/b/c.vmt") true true))).
  reflexivity.
Defined.

Lemma picked_recomputes_watch_set_witness :
  "bump.png" ∈ Gui.watcher
    (state_after (@Gui.picked _ _ (Sample.host Sample.disk []) Normal
                    (Some (Pathlib.Path "bump.png")))
       (Sample.window Sample.store (Some "/a/b/c.vmt") false true)).
Proof.
  apply (proj1 (proj2 (@picked_recomputes_watch_set _ _ (Sample.host Sample.disk []) Normal
                         (Some (Pathlib.Path "bump.png"))
                         (Sample.window Sample.store (Some "/a/b/c.vmt") false true)
                         eq_refl eq_refl))).
  split; [reflexivity |]. exists Normal. reflexivity.
Defined.

(** C9 as it is worded fails on a store that holds the path of a file that
    is not there, as a failed pick leaves it: after the next pick that
    returns, the path is stored and is not watched. *)
Lemma picked_leaves_missing_file_unwatched :
  Gui.watching Sample.stale_window = true
  /\ outcome_of (@Gui.picked _ _ (Sample.host Sample.disk []) Normal
                   (Some (Pathlib.Path "bump.png"))) Sample.stale_window
     = Ok tt
  /\ Backend.get_path Metallic
       (Gui.backend
          (state_after (@Gui.picked _ _ (Sample.host Sample.disk []) Normal
                          (Some (Pathlib.Path "bump.png"))) Sample.stale_window))
     = Some "nothere.png"
  /\ "nothere.png" ∉ Gui.watcher
       (state_after (@Gui.picked _ _ (Sample.host Sample.disk []) Normal
                       (Some (Pathlib.Path "bump.png"))) Sample.stale_window).
Proof.
  split; [reflexivity |]. split; [reflexivity |]. split; [reflexivity |].
  rewrite (@picked_watcher _ _ (Sample.host Sample.disk []) Normal
             (Some (Pathlib.Path "bump.png")) Sample.stale_window eq_refl eq_refl).
  rewrite elem_of_list_to_set, watched_paths_spec.
  intros [Hfile _]. discriminate Hfile.
Qed.

(** * Further properties *)

Section Frames.
Context `{Host}.

Lemma preserves_ret {S A} (R : S -> S -> Prop) `{!Reflexive R} (a : A) : preserves R (ret a).
Proof. intros s. apply reflexivity. Qed.

Lemma preserves_raise {S A} (R : S -> S -> Prop) `{!Reflexive R} (e : Exception) :
  preserves R (@raise _ _ S A e).
Proof. intros s. apply reflexivity. Qed.

Lemma preserves_get {S} (R : S -> S -> Prop) `{!Reflexive R} : preserves R (@get _ _ S).
Proof. intros s. apply reflexivity. Qed.

Lemma preserves_effect {S} (R : S -> S -> Prop) `{!Reflexive R} (ev : Event) :
  preserves R (@effect _ _ S ev).
Proof. intros s. apply reflexivity. Qed.

Lemma preserves_modify {S} (R : S -> S -> Prop) (f : S -> S) :
  (forall s, R s (f s)) -> preserves R (modify f).
Proof. intros Hf s. apply Hf. Qed.

Lemma preserves_bind {S A B} (R : S -> S -> Prop) `{!Transitive R}
    (m : M S A) (k : A -> M S B) :
  preserves R m -> (forall a, preserves R (k a)) -> preserves R (bind m k).
Proof.
  intros Hm Hk s. specialize (Hm s). unfold state_after, bind in *.
  destruct (m s) as [[[a|e] s1] ev1]; cbn [fst snd] in *; [|exact Hm].
  specialize (Hk a s1). unfold state_after in Hk.
  destruct (k a s1) as [[r s2] ev2]. cbn [fst snd] in *. now transitivity s1.
Qed.

Lemma preserves_call {S A} (R : S -> S -> Prop) `{!Reflexive R} (r : option A) (e : Exception) :
  preserves R (@call _ _ S A r e).
Proof. destruct r; [apply preserves_ret | apply preserves_raise]; assumption. Qed.

Lemma preserves_for_each {S A} (R : S -> S -> Prop) `{!PreOrder R}
    (xs : list A) (body : A -> M S unit) :
  (forall x, preserves R (body x)) -> preserves R (for_each xs body).
Proof.
  intros Hbody. induction xs as [|x xs IH]; cbn [for_each].
  - apply preserves_ret; apply _.
  - apply preserves_bind; [apply _ | apply Hbody | intros _; exact IH].
Qed.

Lemma preserves_try_except {S A} (R : S -> S -> Prop) `{!Transitive R}
    (body : M S A) (handler : Exception -> M S A) :
  preserves R body -> (forall e, preserves R (handler e)) ->
  preserves R (try_except body handler).
Proof.
  intros Hb Hh s. specialize (Hb s). unfold state_after, try_except in *.
  destruct (body s) as [[[a|e] s1] ev1]; cbn [fst snd] in *; [exact Hb|].
  specialize (Hh e s1). unfold state_after in Hh.
  destruct (handler e s1) as [[r s2] ev2]. cbn [fst snd] in *. now transitivity s1.
Qed.

Lemma preserves_try_finally {S A} (R : S -> S -> Prop) `{!Transitive R}
    (body : M S A) (final : M S unit) :
  preserves R body -> preserves R final -> preserves R (try_finally body final).
Proof.
  intros Hb Hf s. specialize (Hb s). unfold state_after, try_finally in *.
  destruct (body s) as [[r s1] ev1]; cbn [fst snd] in *.
  specialize (Hf s1). unfold state_after in Hf.
  destruct (final s1) as [[[u|e] s2] ev2]; cbn [fst snd] in *; now transitivity s1.
Qed.

Lemma preserves_on_member {S T A} (R : S -> S -> Prop) (Q : T -> T -> Prop)
    (read : S -> T) (write : T -> S -> S) (m : M T A) :
  preserves Q m -> (forall s t, Q (read s) t -> R s (write t s)) ->
  preserves R (on_member read write m).
Proof.
  intros Hm Hw s. specialize (Hm (read s)). unfold state_after, on_member in *.
  destruct (m (read s)) as [[r t] ev]. cbn [fst snd] in *. now apply Hw.
Qed.

#[local] Instance recached_preorder : PreOrder recached.
Proof.
  split.
  - intros s. split; [reflexivity |]. do 4 (split; [reflexivity |]).
    intros role. now left.
  - intros s1 s2 s3 (Hp1 & Ha1 & Hb1 & Hc1 & Hd1 & Hi1) (Hp2 & Ha2 & Hb2 & Hc2 & Hd2 & Hi2).
    split; [intros role; now rewrite Hp2, Hp1 |].
    do 4 (split; [congruence |]).
    intros role. destruct (Hi2 role) as [Heq | [Hs Hpath]].
    + rewrite Heq. destruct (Hi1 role) as [Heq1 | Hr]; [now left | now right].
    + right. split; [exact Hs |]. now rewrite <- Hp1.
Qed.

Lemma recached_set_image (role : ImageRole) (img : Image) (self : Backend.CoreBackend) :
  is_Some (Backend.get_path role self) ->
  recached self (Backend.set_image role (Some img) self).
Proof.
  intros Hpath. split; [intros r; apply get_path_set_image |].
  do 4 (split; [reflexivity |]).
  intros r. rewrite get_image_set_image.
  destruct (role_eqb r role) eqn:E; [|now left].
  apply role_eqb_eq in E. subst r. right. split; [eauto | exact Hpath].
Qed.

Lemma getImage_recached (noCache : bool) (role : ImageRole) :
  preserves recached (Backend.getImage noCache role).
Proof.
  intros s. unfold state_after. rewrite getImage_run.
  destruct (Backend.channel noCache role s) as [c|] eqn:Hc; cbn [fst snd];
    [|reflexivity].
  unfold Backend.fetched. destruct noCache; [|reflexivity].
  destruct c as [img|]; [|reflexivity].
  apply recached_set_image. unfold Backend.channel in Hc.
  destruct (Backend.get_path role s); [eauto | discriminate].
Qed.

Lemma make_material_recached (noCache : bool) :
  preserves recached (Backend.make_material noCache).
Proof.
  unfold Backend.make_material.
  repeat first
    [ apply preserves_bind; [apply _ | apply getImage_recached | intros ?]
    | apply preserves_bind; [apply _ | apply preserves_effect; apply _ | intros ?]
    | apply preserves_bind; [apply _ | apply preserves_get; apply _ | intros ?]
    | apply preserves_ret; apply _
    | apply preserves_raise; apply _
    | match goal with |- preserves _ (match ?x with _ => _ end) => destruct x end ].
Qed.


Lemma pick_falsy (path : option string) (role : ImageRole) (self : Backend.CoreBackend) :
  Backend.truthy path = false ->
  Backend.pick path role self
  = (Ok None, Backend.set_image role None (Backend.set_path role path self), []).
Proof. destruct path as [[|c p]|]; [reflexivity | discriminate | reflexivity]. Qed.


End Frames.

Section StoreInvariant.
Context `{CoreLib}.


End StoreInvariant.

Section BackendExtras.
Context `{Host}.
Import Backend.

(** X2: [pick] of a non-empty path that decodes returns the Qt image and
    prints nothing; it stores the path and the decoded image under the role,
    so that a cached fetch of the role gives that image, and leaves the paths
    and images of the other roles, the target directory and the name alone. *)
Theorem pick_stores_entry (p : string) (role : ImageRole) (self : CoreBackend)
    (r : QImage * Image) :
  p <> "" -> decode p = Some r ->
  outcome_of (pick (Some p) role) self = Ok (Some (fst r))
  /\ events_of (pick (Some p) role) self = []
  /\ get_path role (state_after (pick (Some p) role) self) = Some p
  /\ get_image role (state_after (pick (Some p) role) self) = Some (snd r)
  /\ channel false role (state_after (pick (Some p) role) self) = Some (Some (snd r))
  /\ (forall r', r' <> role ->
        get_path r' (state_after (pick (Some p) role) self) = get_path r' self
        /\ get_image r' (state_after (pick (Some p) role) self) = get_image r' self)
  /\ path (state_after (pick (Some p) role) self) = path self
  /\ name (state_after (pick (Some p) role) self) = name self.
Proof.
  intros Hp Hdec. unfold outcome_of, events_of, state_after, channel.
  rewrite (pick_run p role self Hp), Hdec. cbn [fst snd].
  rewrite get_path_set_image, get_path_set_path, get_image_set_image, role_eqb_refl.
  repeat match goal with |- _ /\ _ => split end; try reflexivity.
  - intros r' Hne. rewrite get_path_set_image, get_path_set_path, get_image_set_image.
    destruct (role_eqb r' role) eqn:E; [apply role_eqb_eq in E; congruence |].
    now rewrite get_image_set_path.
Qed.

(** X3: [pick] of [None] or of the empty string returns [None], stores
    that value as the path of the role and drops the cached image of the
    role; the other roles keep their paths and images. *)
Theorem pick_falsy_clears (path : option string) (role : ImageRole) (self : CoreBackend) :
  truthy path = false ->
  outcome_of (pick path role) self = Ok None
  /\ events_of (pick path role) self = []
  /\ get_image role (state_after (pick path role) self) = None
  /\ get_path role (state_after (pick path role) self) = path
  /\ channel false role (state_after (pick path role) self) = Some None
  /\ (forall r', r' <> role ->
        get_path r' (state_after (pick path role) self) = get_path r' self
        /\ get_image r' (state_after (pick path role) self) = get_image r' self).
Proof.
  intros Hfalsy. unfold outcome_of, events_of, state_after, channel.
  rewrite (pick_falsy path role self Hfalsy). cbn [fst snd].
  rewrite get_path_set_image, get_path_set_path, get_image_set_image, role_eqb_refl.
  repeat match goal with |- _ /\ _ => split end; try reflexivity.
  intros r' Hne. rewrite get_path_set_image, get_path_set_path, get_image_set_image.
  destruct (role_eqb r' role) eqn:E; [apply role_eqb_eq in E; congruence |].
  now rewrite get_image_set_path.
Qed.

Lemma getImage_cached_same (role : ImageRole) : preserves eq (getImage false role).
Proof. intros s. reflexivity. Qed.

(** X4: [make_material] with the cache in use leaves the backend exactly
    as it found it, whether it returns a material or raises. *)
Theorem make_material_cached_keeps_backend (self : CoreBackend) :
  state_after (make_material false) self = self.
Proof.
  symmetry. revert self. change (preserves eq (make_material false)).
  unfold make_material.
  repeat first
    [ apply preserves_bind; [apply _ | apply getImage_cached_same | intros ?]
    | apply preserves_bind; [apply _ | apply preserves_effect; apply _ | intros ?]
    | apply preserves_bind; [apply _ | apply preserves_get; apply _ | intros ?]
    | apply preserves_ret; apply _
    | apply preserves_raise; apply _
    | match goal with |- preserves _ (match ?x with _ => _ end) => destruct x end ].
Qed.

(** X5: [make_material] returns a material exactly when every channel can
    be fetched (without the cache: every stored path decodes) and the albedo
    and the roughness channel are there. *)
Theorem make_material_succeeds_iff (noCache : bool) (self : CoreBackend) :
  (exists m, outcome_of (make_material noCache) self = Ok m)
  <-> exists cs : ImageRole -> option Image,
        (forall role, channel noCache role self = Some (cs role))
        /\ is_Some (cs Albedo) /\ is_Some (cs Roughness).
Proof.
  split.
  - intros [m Hm]. revert Hm. unfold outcome_of, make_material.
    unfold bind at 1. rewrite getImage_run.
    destruct (channel noCache Albedo self) as [[a|]|] eqn:Ha; try discriminate.
    unfold bind at 1. rewrite getImage_run, ?channel_fetched.
    destruct (channel noCache Roughness self) as [[r|]|] eqn:Hr; try discriminate.
    unfold bind at 1. rewrite getImage_run, ?channel_fetched.
    destruct (channel noCache Metallic self) as [om|] eqn:Hm; try discriminate.
    unfold bind at 1. rewrite getImage_run, ?channel_fetched.
    destruct (channel noCache Emit self) as [oe|] eqn:He; try discriminate.
    unfold bind at 1. rewrite getImage_run, ?channel_fetched.
    destruct (channel noCache AO self) as [oo|] eqn:Ho; try discriminate.
    unfold bind at 1. rewrite getImage_run, ?channel_fetched.
    destruct (channel noCache Normal self) as [on|] eqn:Hn; try discriminate.
    unfold bind at 1. rewrite getImage_run, ?channel_fetched.
    destruct (channel noCache Height self) as [oh|] eqn:Hh; try discriminate.
    intros _.
    exists (fun role => match role with
                        | Albedo => Some a | Roughness => Some r | Metallic => om
                        | Emit => oe | AO => oo | Normal => on | Height => oh
                        end).
    split; [intros role; destruct role; assumption | split; eauto].
  - intros (cs & Hcs & [a Ha] & [r Hr]). eexists.
    exact (make_material_of_channels noCache self cs a r Hcs Ha Hr).
Qed.
End BackendExtras.

Section MakeMaterialExtras.
Context `{Host}.
Import Backend.

Lemma get_path_fetched (noCache : bool) (r role : ImageRole) (c : option Image)
    (self : CoreBackend) :
  get_path r (fetched noCache role c self) = get_path r self.
Proof. unfold fetched. destruct noCache, c; reflexivity. Qed.

Lemma channel_none_inv (noCache : bool) (role : ImageRole) (self : CoreBackend) :
  channel noCache role self = None ->
  noCache = true /\ exists p, get_path role self = Some p /\ decode p = None.
Proof.
  unfold channel. destruct noCache; [|discriminate].
  destruct (get_path role self) as [p|]; [|discriminate].
  destruct (decode p) eqn:Hd; [discriminate |]. intros _. eauto.
Qed.

Lemma make_material_missing_albedo (noCache : bool) (self : CoreBackend) :
  channel noCache Albedo self = Some None ->
  make_material noCache self
  = (Raise (AssertionError "A basetexture is required to convert the material!"), self, []).
Proof.
  intros Ha. unfold make_material, bind at 1. rewrite getImage_run, Ha.
  unfold fetched. now destruct noCache.
Qed.

Lemma make_material_missing_roughness_run (noCache : bool) (self : CoreBackend) (a : Image) :
  channel noCache Albedo self = Some (Some a) ->
  channel noCache Roughness self = Some None ->
  make_material noCache self
  = (Raise (AssertionError "A roughness map is required to convert the material!"),
     fetched noCache Albedo (Some a) self, []).
Proof.
  intros Ha Hr. unfold make_material, bind at 1.
  rewrite getImage_run, Ha.
  unfold bind at 1. rewrite getImage_run, channel_fetched, Hr.
  unfold fetched. now destruct noCache.
Qed.

Lemma make_material_missing_roughness (noCache : bool) (self : CoreBackend) (a : Image) :
  channel noCache Albedo self = Some (Some a) ->
  channel noCache Roughness self = Some None ->
  outcome_of (make_material noCache) self
  = Raise (AssertionError "A roughness map is required to convert the material!")
  /\ events_of (make_material noCache) self = [].
Proof.
  intros Ha Hr. unfold outcome_of, events_of.
  now rewrite (make_material_missing_roughness_run noCache self a Ha Hr).
Qed.

(** X6: when [make_material] raises, it is the basetexture assertion with
    no albedo channel, or the roughness assertion with no roughness channel,
    or, only with the cache disabled, the decoding error of the stored path
    of some role. *)
Theorem make_material_errors (noCache : bool) (self : CoreBackend) (e : Exception) :
  outcome_of (make_material noCache) self = Raise e ->
  (e = AssertionError "A basetexture is required to convert the material!"
   /\ channel noCache Albedo self = Some None)
  \/ (e = AssertionError "A roughness map is required to convert the material!"
      /\ channel noCache Roughness self = Some None)
  \/ (noCache = true
      /\ exists role p, get_path role self = Some p /\ decode p = None /\ e = DecodeError p).
Proof.
  assert (Hdec : forall role,
             channel noCache role self = None ->
             @Raise Material
               (DecodeError (match get_path role self with Some p => p | None => "" end))
             = Raise e ->
             noCache = true
             /\ exists role p, get_path role self = Some p /\ decode p = None /\ e = DecodeError p).
  { intros role Hnone Heq.
    destruct (channel_none_inv _ _ _ Hnone) as (Hnc & p & Hp & Hd).
    split; [exact Hnc |]. exists role, p. rewrite Hp in Heq.
    repeat split; try assumption. congruence. }
  unfold outcome_of, make_material.
  unfold bind at 1. rewrite getImage_run.
  destruct (channel noCache Albedo self) as [[a|]|] eqn:Ha; cbn [fst snd];
    [| intros [= <-]; left; now split
     | intros Heq; right; right; now apply (Hdec Albedo) ].
  unfold bind at 1. rewrite getImage_run, ?channel_fetched, ?get_path_fetched.
  destruct (channel noCache Roughness self) as [[r|]|] eqn:Hr; cbn [fst snd];
    [| intros [= <-]; right; left; now split
     | intros Heq; right; right; now apply (Hdec Roughness) ].
  unfold bind at 1. rewrite getImage_run, ?channel_fetched, ?get_path_fetched.
  destruct (channel noCache Metallic self) as [om|] eqn:Hm; cbn [fst snd];
    [| intros Heq; right; right; now apply (Hdec Metallic) ].
  unfold bind at 1. rewrite getImage_run, ?channel_fetched, ?get_path_fetched.
  destruct (channel noCache Emit self) as [oe|] eqn:He; cbn [fst snd];
    [| intros Heq; right; right; now apply (Hdec Emit) ].
  unfold bind at 1. rewrite getImage_run, ?channel_fetched, ?get_path_fetched.
  destruct (channel noCache AO self) as [oo|] eqn:Ho; cbn [fst snd];
    [| intros Heq; right; right; now apply (Hdec AO) ].
  unfold bind at 1. rewrite getImage_run, ?channel_fetched, ?get_path_fetched.
  destruct (channel noCache Normal self) as [on|] eqn:Hn; cbn [fst snd];
    [| intros Heq; right; right; now apply (Hdec Normal) ].
  unfold bind at 1. rewrite getImage_run, ?channel_fetched, ?get_path_fetched.
  destruct (channel noCache Height self) as [oh|] eqn:Hh; cbn [fst snd];
    [| intros Heq; right; right; now apply (Hdec Height) ].
  discriminate.
Qed.

Lemma make_material_state (noCache : bool) (self : CoreBackend)
    (cs : ImageRole -> option Image) (a r : Image) :
  (forall role, channel noCache role self = Some (cs role)) ->
  cs Albedo = Some a -> cs Roughness = Some r ->
  state_after (make_material noCache) self
  = fetched noCache Height (cs Height)
      (fetched noCache Normal (cs Normal)
         (fetched noCache AO (cs AO)
            (fetched noCache Emit (cs Emit)
               (fetched noCache Metallic (cs Metallic)
                  (fetched noCache Roughness (cs Roughness)
                     (fetched noCache Albedo (cs Albedo) self)))))).
Proof.
  intros Hcs Ha Hr. unfold state_after, make_material, bind.
  rewrite getImage_run, Hcs, Ha.
  rewrite getImage_run, ?channel_fetched, Hcs, Hr.
  rewrite getImage_run, ?channel_fetched, Hcs.
  rewrite getImage_run, ?channel_fetched, Hcs.
  rewrite getImage_run, ?channel_fetched, Hcs.
  rewrite getImage_run, ?channel_fetched, Hcs.
  rewrite getImage_run, ?channel_fetched, Hcs.
  reflexivity.
Qed.

(** X7: a [make_material] without the cache that finds albedo and
    roughness keeps every stored path, replaces the cached image of each role
    that has a path by what the path decodes to, and keeps the cached image
    of a role that has none. *)
Theorem make_material_refreshes_cache (self : CoreBackend)
    (cs : ImageRole -> option Image) (a r : Image) :
  (forall role, channel true role self = Some (cs role)) ->
  cs Albedo = Some a -> cs Roughness = Some r ->
  forall role,
    get_path role (state_after (make_material true) self) = get_path role self
    /\ get_image role (state_after (make_material true) self)
       = match cs role with
         | Some img => Some img
         | None => get_image role self
         end.
Proof.
  intros Hcs Ha Hr role.
  rewrite (make_material_state true self cs a r Hcs Ha Hr).
  split; [now rewrite !get_path_fetched |].
  unfold fetched. clear Hcs Ha Hr.
  destruct role;
    destruct (cs Albedo), (cs Roughness), (cs Metallic), (cs Emit), (cs AO), (cs Normal),
      (cs Height); reflexivity.
Qed.

(** X8: when the cache holds for every role what a fresh fetch of the role
    gives, [make_material] returns and prints the same with and without the
    cache. *)
Theorem make_material_modes_agree (self : CoreBackend) :
  (forall role, channel true role self = Some (get_image role self)) ->
  outcome_of (make_material true) self = outcome_of (make_material false) self
  /\ events_of (make_material true) self = events_of (make_material false) self.
Proof.
  intros Hcoh.
  assert (Hcached : forall role, channel false role self = Some (get_image role self))
    by reflexivity.
  destruct (get_image Albedo self) as [a|] eqn:Ha.
  - destruct (get_image Roughness self) as [r|] eqn:Hr.
    + unfold events_of.
      pose proof (make_material_run true self a r _ _ _ _ _
                    (eq_trans (Hcoh Albedo) (f_equal Some Ha))
                    (eq_trans (Hcoh Roughness) (f_equal Some Hr))
                    (Hcoh Metallic) (Hcoh Emit) (Hcoh AO) (Hcoh Normal) (Hcoh Height))
        as (Ho1 & He1 & _).
      pose proof (make_material_run false self a r _ _ _ _ _
                    (eq_trans (Hcached Albedo) (f_equal Some Ha))
                    (eq_trans (Hcached Roughness) (f_equal Some Hr))
                    (Hcached Metallic) (Hcached Emit) (Hcached AO) (Hcached Normal)
                    (Hcached Height))
        as (Ho2 & He2 & _).
      unfold events_of in He1, He2. split; congruence.
    + destruct (make_material_missing_roughness true self a) as [Ho1 He1];
        [now rewrite Hcoh, Ha | now rewrite Hcoh, Hr |].
      destruct (make_material_missing_roughness false self a) as [Ho2 He2];
        [now rewrite Hcached, Ha | now rewrite Hcached, Hr |].
      split; congruence.
  - unfold outcome_of, events_of.
    rewrite (make_material_missing_albedo true self) by (now rewrite Hcoh, Ha).
    rewrite (make_material_missing_albedo false self) by (now rewrite Hcached, Ha).
    split; reflexivity.
Qed.

End MakeMaterialExtras.

Section Components.

Lemma contains_app (c : ascii) (a b : string) :
  PyStr.contains c (a +:+ b) = PyStr.contains c a || PyStr.contains c b.
Proof.
  induction a as [|d a IH]; simpl; [reflexivity |].
  now rewrite IH, orb_assoc.
Qed.

Lemma split_components_no_sep (sep : ascii) (s x : string) :
  In x (PyStr.split sep s) -> PyStr.contains sep x = false.
Proof.
  revert x. induction s as [|c s IH]; simpl; intros x Hin.
  - destruct Hin as [<- | []]. reflexivity.
  - destruct (Ascii.eqb c sep) eqn:Hc.
    + destruct Hin as [<- | Hin]; [reflexivity | now apply IH].
    + destruct (PyStr.split sep s) as [|h r] eqn:Hs.
      * destruct Hin as [<- | []]. simpl. now rewrite Hc.
      * destruct Hin as [<- | Hin].
        -- simpl. rewrite Hc. apply IH. now left.
        -- apply IH. now right.
Qed.

Lemma last_in_or_default (l : list string) (d : string) :
  List.last l d = d \/ In (List.last l d) l.
Proof.
  induction l as [|x l IH]; [now left |].
  destruct l as [|y l]; [right; now left |].
  change (List.last (x :: y :: l) d) with (List.last (y :: l) d).
  destruct IH as [-> | Hin]; [now left | right; now right].
Qed.

Lemma name_no_slash (pathStr : string) :
  PyStr.contains "/" (Pathlib.name (Pathlib.Path pathStr)) = false.
Proof.
  unfold Pathlib.name, Pathlib.Path. destruct (Pathlib.splitroot pathStr) as [rt rel].
  cbn [Pathlib.tail].
  destruct (last_in_or_default
              (List.filter (fun x => negb (String.eqb x "") && negb (String.eqb x "."))
                 (PyStr.split "/" rel)) "") as [-> | Hin]; [reflexivity |].
  apply filter_In in Hin as [Hin _]. now apply split_components_no_sep in Hin.
Qed.

Lemma removesuffix_no_sep (c : ascii) (s suffix : string) :
  PyStr.contains c s = false -> PyStr.contains c (PyStr.removesuffix s suffix) = false.
Proof.
  intros Hno. destruct (removesuffix_cases s suffix) as [[_ ->] | [_ Hcut]]; [exact Hno |].
  rewrite Hcut, contains_app in Hno. now apply orb_false_iff in Hno as [Hno _].
Qed.

Lemma scan_prefix_shape (l : list string) (acc : string) :
  (acc = "" \/ exists q, acc = q +:+ "/") ->
  fst (Backend.scan l acc) = "" \/ exists q, fst (Backend.scan l acc) = q +:+ "/".
Proof.
  revert acc. induction l as [|c l IH]; intros acc Hacc; simpl; [exact Hacc |].
  destruct (String.eqb c "materials"); [exact Hacc |].
  apply IH. right. destruct Hacc as [-> | [q ->]].
  - exists c. reflexivity.
  - exists (c +:+ "/" +:+ q). now rewrite !append_assoc.
Qed.

Lemma isolated_after_slash (q t : string) :
  PyStr.contains "/" t = false ->
  PyStr.item_last (PyStr.rsplit1 "/" ((q +:+ "/") +:+ t)) = t.
Proof.
  intros Hno. rewrite (proj1 (isolated_name _)), append_assoc.
  change ("/" +:+ t) with (String "/" t). rewrite last_split_app.
  now rewrite (last_split_no_sep _ _ Hno).
Qed.

Lemma isolated_plain (t : string) :
  PyStr.contains "/" t = false -> PyStr.item_last (PyStr.rsplit1 "/" t) = t.
Proof.
  intros Hno. rewrite (proj1 (isolated_name _)). now rewrite (last_split_no_sep _ _ Hno).
Qed.

Lemma isolated_material_name (pathStr : string) :
  PyStr.item_last (PyStr.rsplit1 "/" (Backend.material_name pathStr))
  = PyStr.removesuffix (Pathlib.name (Pathlib.Path pathStr)) ".vmt".
Proof.
  pose proof (removesuffix_no_sep "/" _ ".vmt" (name_no_slash pathStr)) as Hno.
  unfold Backend.material_name.
  pose proof (scan_prefix_shape
                (rev (removelast (Pathlib.parts (Pathlib.Path pathStr)))) ""
                (or_introl eq_refl)) as Hshape.
  destruct (Backend.scan _ "") as [namePath [|]]; cbn [fst] in Hshape.
  - destruct Hshape as [-> | [q ->]].
    + now apply isolated_plain.
    + now apply isolated_after_slash.
  - now apply isolated_plain.
Qed.

End Components.

Section BackendExportExtras.
Context `{Host}.
Import Backend.

Lemma failed_export_run (material : Material) (self : CoreBackend)
    (e : Exception) :
  outcome_of (export material) self = Raise e ->
  state_after (export material) self = self
  /\ (((path self = None
        \/ core_export (set_m_name (name self) material) = None
        \/ core_make_vmt (set_m_name (name self) material) = None)
       /\ files_written (events_of (export material) self) = [])
      \/ (exists dir vmt,
            path self = Some dir
            /\ core_make_vmt (set_m_name (name self) material) = Some vmt
            /\ refused (WriteText dir
                          (PyStr.item_last (PyStr.rsplit1 "/" (name self)) +:+ ".vmt") vmt)
               = Some e
            /\ files_written (events_of (export material) self) = [])
      \/ (exists dir textures done texture rest,
            path self = Some dir
            /\ core_export (set_m_name (name self) material) = Some textures
            /\ textures = done ++ texture :: rest
            /\ refused (SaveImage dir
                          (texture_file (PyStr.item_last (PyStr.rsplit1 "/" (name self)))
                             texture)
                          (tex_image texture) (vtf_version (m_target material)))
               = Some e
            /\ files_written (events_of (export material) self)
               = (dir, PyStr.item_last (PyStr.rsplit1 "/" (name self)) +:+ ".vmt")
                 :: List.map (fun texture =>
                      (dir, texture_file (PyStr.item_last (PyStr.rsplit1 "/" (name self)))
                              texture)) done)).
Proof.
  intros Hraise. split; [apply export_keeps_backend |].
  unfold outcome_of, events_of in *. rewrite export_run in *.
  destruct (path self) as [dir|] eqn:Hdir; [| left; split; [now left | reflexivity]].
  cbv zeta in *.
  destruct (core_export (set_m_name (name self) material)) as [textures|] eqn:Htex;
    [| left; split; [right; now left | reflexivity]].
  destruct (core_make_vmt (set_m_name (name self) material)) as [vmt|] eqn:Hvmt;
    [| left; split; [right; now right | reflexivity]].
  destruct (refused (WriteText _ _ _)) as [e0|] eqn:Hopen.
  - right. left. cbn [fst snd] in *. injection Hraise as ->.
    exists dir, vmt. repeat split; assumption.
  - right. right. cbn [fst snd] in *.
    destruct (refusal _ textures) as [e0|] eqn:Hsave; [| discriminate].
    injection Hraise as ->.
    destruct (accepted_prefix _ _ _ Hsave) as (texture & rest & Hsplit & Hrefused).
    exists dir, textures, (accepted
      (fun texture => SaveImage dir
         (texture_file (PyStr.item_last (PyStr.rsplit1 "/" (name self))) texture)
         (tex_image texture) (vtf_version (m_target material))) textures), texture, rest.
    split; [reflexivity |]. split; [reflexivity |]. split; [exact Hsplit |].
    split; [exact Hrefused |].
    cbn [app files_written written]. f_equal. apply files_written_map_save.
Qed.

(** X9: a backend [export] that raises has left the backend as it was.
    It has written no file when the target directory is missing, when the
    texture export or the descriptor builder fails, or when the descriptor
    cannot be written; when a texture cannot be saved, it has written the
    descriptor and the textures before that one, and none after it. *)
Theorem export_failure_writes_prefix (material : Material) (self : CoreBackend)
    (e : Exception) :
  outcome_of (export material) self = Raise e ->
  state_after (export material) self = self
  /\ (((path self = None
        \/ core_export (set_m_name (name self) material) = None
        \/ core_make_vmt (set_m_name (name self) material) = None)
       /\ files_written (events_of (export material) self) = [])
      \/ (exists dir vmt,
            path self = Some dir
            /\ core_make_vmt (set_m_name (name self) material) = Some vmt
            /\ refused (WriteText dir
                          (PyStr.item_last (PyStr.rsplit1 "/" (name self)) +:+ ".vmt") vmt)
               = Some e
            /\ files_written (events_of (export material) self) = [])
      \/ (exists dir textures done texture rest,
            path self = Some dir
            /\ core_export (set_m_name (name self) material) = Some textures
            /\ textures = done ++ texture :: rest
            /\ refused (SaveImage dir
                          (texture_file (PyStr.item_last (PyStr.rsplit1 "/" (name self)))
                             texture)
                          (tex_image texture) (vtf_version (m_target material)))
               = Some e
            /\ files_written (events_of (export material) self)
               = (dir, PyStr.item_last (PyStr.rsplit1 "/" (name self)) +:+ ".vmt")
                 :: List.map (fun texture =>
                      (dir, texture_file (PyStr.item_last (PyStr.rsplit1 "/" (name self)))
                              texture)) done)).
Proof. exact (failed_export_run material self e). Qed.

Lemma export_after_pick_vmt (target : string) (material m' : Material)
    (self : CoreBackend) :
  outcome_of (export material) (state_after (pick_vmt target) self) = Ok m' ->
  exists textures,
    core_export m' = Some textures
    /\ m_name m' = material_name target
    /\ files_written (events_of (export material) (state_after (pick_vmt target) self))
       = (Pathlib.parent (Pathlib.Path target),
          PyStr.removesuffix (Pathlib.name (Pathlib.Path target)) ".vmt" +:+ ".vmt")
         :: List.map (fun texture =>
              (Pathlib.parent (Pathlib.Path target),
               PyStr.removesuffix (Pathlib.name (Pathlib.Path target)) ".vmt"
               +:+ tex_name texture +:+ ".vtf")) textures
    /\ (PyStr.endswith (Pathlib.name (Pathlib.Path target)) ".vmt" = true ->
        PyStr.removesuffix (Pathlib.name (Pathlib.Path target)) ".vmt" +:+ ".vmt"
        = Pathlib.name (Pathlib.Path target)).
Proof.
  intros Hok.
  destruct (export_ok_inv _ _ _ Hok) as (dir & textures & vmt & Hdir & Htex & Hvmt & Hrun).
  unfold outcome_of, events_of in *.
  rewrite Hrun in *.
  cbn [fst snd] in *. injection Hok as <-.
  unfold state_after in *. rewrite pick_vmt_run in *. cbn [fst snd name path set_target] in *.
  injection Hdir as <-. rewrite isolated_material_name.
  exists textures. repeat match goal with |- _ /\ _ => split end.
  - exact Htex.
  - reflexivity.
  - cbn [files_written written app]. f_equal. apply files_written_map_save.
  - intros Hends.
    destruct (removesuffix_cases (Pathlib.name (Pathlib.Path target)) ".vmt")
      as [[Hno _] | [_ Hcut]]; [congruence | now rewrite <- Hcut].
Qed.

(** X10: an [export] that returns after [pick_vmt] of a target has named
    the material as [pick_vmt] resolved it and has written, into the
    directory of the target, first the descriptor under the file name of the
    target stripped of one [.vmt] and given [.vmt] again, then one [.vtf] per
    texture under the stripped file name followed by the texture name; for a
    target that ends in [.vmt] the descriptor is the target itself. *)
Theorem export_files_follow_target (target : string) (material m' : Material)
    (self : CoreBackend) :
  outcome_of (export material) (state_after (pick_vmt target) self) = Ok m' ->
  exists textures,
    core_export m' = Some textures
    /\ m_name m' = material_name target
    /\ files_written (events_of (export material) (state_after (pick_vmt target) self))
       = (Pathlib.parent (Pathlib.Path target),
          PyStr.removesuffix (Pathlib.name (Pathlib.Path target)) ".vmt" +:+ ".vmt")
         :: List.map (fun texture =>
              (Pathlib.parent (Pathlib.Path target),
               PyStr.removesuffix (Pathlib.name (Pathlib.Path target)) ".vmt"
               +:+ tex_name texture +:+ ".vtf")) textures
    /\ (PyStr.endswith (Pathlib.name (Pathlib.Path target)) ".vmt" = true ->
        PyStr.removesuffix (Pathlib.name (Pathlib.Path target)) ".vmt" +:+ ".vmt"
        = Pathlib.name (Pathlib.Path target)).
Proof. exact (export_after_pick_vmt target material m' self). Qed.

End BackendExportExtras.

Section GuiRun.
Context `{Host}.
Import Gui.

Lemma pick_target_run (answer : string) (w : MainWindow) :
  pick_target answer w
  = (Ok tt,
     match answer with
     | EmptyString => w
     | _ => set_target (Some answer) w
     end,
     [Print "Picking target"; FileDialog "Saving material..."]).
Proof. unfold pick_target, bind, effect. now destruct answer. Qed.

Lemma export_except_run (e : Exception) (w : MainWindow) :
  export_except e w
  = (Ok tt, set_progressBar 0%Z w,
     match e with
     | InterruptedError => [Print "The export was cancelled by the user."]
     | _ => [Print "The export failed!"; MessageBox "Failed to export!" (exception_text e)]
     end).
Proof. unfold export_except, bind, modify, effect. now destruct e. Qed.

Lemma export_try_run (answer : string) (w : MainWindow) :
  export_try answer w =
  match Backend.make_material (reloadOnExport (config w)) (backend w) with
  | (Raise e, b1, ev1) => (Raise e, set_backend b1 w, ev1)
  | (Ok material, b1, ev1) =>
      let w1 := set_progressBar 50%Z (set_backend b1 w) in
      let w2 := match target w with
                | None => match answer with
                          | EmptyString => w1
                          | _ => set_target (Some answer) w1
                          end
                | Some _ => w1
                end in
      let evd := match target w with
                 | None => [Print "Picking target"; FileDialog "Saving material..."]
                 | Some _ => []
                 end in
      match target w2 with
      | None => (Raise InterruptedError, w2, ev1 ++ evd)
      | Some t =>
          match Backend.export material
                  (Backend.set_target (Pathlib.parent (Pathlib.Path t))
                     (Backend.material_name t) b1) with
          | (Raise e, b3, ev3) => (Raise e, set_backend b3 w2, ev1 ++ evd ++ ev3)
          | (Ok _, b3, ev3) =>
              match hijack_refusal w (Backend.name b3) with
              | Some e =>
                  (Raise e, set_progressBar 100%Z (set_backend b3 w2), ev1 ++ evd ++ ev3)
              | None =>
                  (Ok tt, set_progressBar 100%Z (set_backend b3 w2),
                   ev1 ++ evd ++ ev3 ++ hijack_events w (Backend.name b3))
              end
          end
      end
  end.
Proof.
  unfold export_try, on_backend, on_member.
  unfold bind at 1. cbn [get].
  unfold bind at 1.
  destruct (Backend.make_material _ _) as [[[material|e] b1] ev1]; [|reflexivity].
  unfold bind, modify, get, ret, raise.
  cbn [target set_progressBar set_backend backend config].
  destruct (target w) as [t|] eqn:Ht.
  - cbn [target set_progressBar set_backend backend config]. rewrite ?Ht.
    rewrite pick_vmt_run. cbn [fst snd backend set_backend].
    destruct (Backend.export material _) as [[[m'|e] b3] ev3]; [|reflexivity].
    unfold hijack_refusal, hijack_events.
    cbn [config set_backend set_progressBar backend].
    destruct (hijackTarget (config w)) as [[|c s]|]; try reflexivity.
    rewrite attempt_run. destruct (refused _) as [e|]; now rewrite ?app_nil_r.
  - rewrite pick_target_run.
    destruct answer as [|c0 a0].
    + cbn [target set_progressBar set_backend]. rewrite Ht. reflexivity.
    + cbn [target set_target backend].
      rewrite pick_vmt_run. cbn [fst snd backend set_backend].
      destruct (Backend.export material _) as [[[m'|e] b3] ev3]; [|reflexivity].
      unfold hijack_refusal, hijack_events.
      cbn [config set_backend set_progressBar set_target backend].
      destruct (hijackTarget (config w)) as [[|c s]|]; try reflexivity.
      rewrite attempt_run. destruct (refused _) as [e|]; now rewrite ?app_nil_r.
Qed.
End GuiRun.

Section SlotRun.
Context `{Host}.
Import Gui.

Lemma export_slot_run (n : nat) (pending : list Trigger) (answer : string) (w : MainWindow) :
  exporting w = false ->
  export n pending answer w =
  match export_try answer (entered w) with
  | (Ok _, w', evs) => (Ok tt, finished w', Print "Exporting..." :: evs)
  | (Raise e, w', evs) =>
      (Ok tt, finished (set_progressBar 0%Z w'),
       Print "Exporting..." :: evs ++
       match e with
       | InterruptedError => [Print "The export was cancelled by the user."]
       | _ => [Print "The export failed!"; MessageBox "Failed to export!" (exception_text e)]
       end)
  end.
Proof.
  intros Hexp. rewrite (export_unguarded n pending answer w Hexp). unfold try_except.
  destruct (export_try answer (entered w)) as [[[u|e] w'] evs]; [now destruct u |].
  now rewrite export_except_run.
Qed.

Lemma make_material_triple (noCache : bool) (self self' : Backend.CoreBackend)
    (o : Outcome Material) (evs : list Event) :
  Backend.make_material noCache self = (o, self', evs) ->
  (exists m, o = Ok m /\ evs = [Print "Constructing material..."])
  \/ (exists e, o = Raise e /\ evs = []).
Proof.
  unfold Backend.make_material.
  unfold bind at 1. rewrite getImage_run.
  destruct (Backend.channel noCache Albedo self) as [[a|]|];
    [| intros [= <- <- <-]; right; eauto | intros [= <- <- <-]; right; eauto].
  unfold bind at 1. rewrite getImage_run.
  destruct (Backend.channel noCache Roughness _) as [[r|]|];
    [| intros [= <- <- <-]; right; eauto | intros [= <- <- <-]; right; eauto].
  unfold bind at 1. rewrite getImage_run.
  destruct (Backend.channel noCache Metallic _) as [om|];
    [| intros [= <- <- <-]; right; eauto].
  unfold bind at 1. rewrite getImage_run.
  destruct (Backend.channel noCache Emit _) as [oe|];
    [| intros [= <- <- <-]; right; eauto].
  unfold bind at 1. rewrite getImage_run.
  destruct (Backend.channel noCache AO _) as [oo|];
    [| intros [= <- <- <-]; right; eauto].
  unfold bind at 1. rewrite getImage_run.
  destruct (Backend.channel noCache Normal _) as [on|];
    [| intros [= <- <- <-]; right; eauto].
  unfold bind at 1. rewrite getImage_run.
  destruct (Backend.channel noCache Height _) as [oh|];
    [| intros [= <- <- <-]; right; eauto].
  intros [= <- <- <-]. left. eauto.
Qed.
End SlotRun.

Section WrittenFiles.
Context `{Host}.
Import Gui.

Lemma files_written_app (l1 l2 : list Event) :
  files_written (l1 ++ l2) = files_written l1 ++ files_written l2.
Proof.
  induction l1 as [|ev l1 IH]; [reflexivity |].
  cbn [app files_written]. destruct (written ev); cbn [app]; now rewrite IH.
Qed.

Lemma export_triple (material : Material) (self self' : Backend.CoreBackend)
    (o : Outcome Material) (evs : list Event) :
  Backend.export material self = (o, self', evs) ->
  self' = self /\ Forall silent evs.
Proof.
  rewrite export_run.
  destruct (Backend.path self) as [dir|]; [| intros [= <- <- <-]; now split].
  cbv zeta.
  destruct (core_export _) as [textures|];
    [| intros [= <- <- <-]; split; [reflexivity | now repeat constructor]].
  destruct (core_make_vmt _) as [vmt|];
    [| intros [= <- <- <-]; split; [reflexivity | now repeat constructor]].
  destruct (refused (WriteText _ _ _)) as [e|];
    [intros [= <- <- <-]; split; [reflexivity | now repeat constructor] |].
  intros [= <- <- <-]. split; [reflexivity |].
  cbn [app]. repeat (apply List.Forall_cons; [now split |]).
  apply List.Forall_forall. intros ev Hin.
  apply in_map_iff in Hin as (tx & <- & _). now split.
Qed.
End WrittenFiles.

Section WholeExport.
Context `{Host}.
Import Gui.

Lemma set_target_same (t : string) (w : MainWindow) :
  target w = Some t -> set_target (Some t) w = w.
Proof. destruct w. cbn. now intros ->. Qed.

Lemma export_cycle_run (n : nat) (pending : list Trigger) (answer : string) (w : MainWindow) :
  exporting w = false ->
  export n pending answer w =
  match Backend.make_material (reloadOnExport (config w)) (backend w) with
  | (Raise e, b1, ev1) =>
      (Ok tt, finished (set_progressBar 0%Z (set_backend b1 w)),
       Print "Exporting..." :: ev1 ++ failure_events e)
  | (Ok material, b1, ev1) =>
      match resolved_target answer w with
      | None =>
          (Ok tt, finished (set_progressBar 0%Z (set_backend b1 w)),
           Print "Exporting..." :: ev1 ++ dialog_events w ++ failure_events InterruptedError)
      | Some t =>
          match Backend.export material
                  (Backend.set_target (Pathlib.parent (Pathlib.Path t))
                     (Backend.material_name t) b1) with
          | (Raise e, b3, ev3) =>
              (Ok tt, finished (set_progressBar 0%Z (set_target (Some t) (set_backend b3 w))),
               Print "Exporting..." :: ev1 ++ dialog_events w ++ ev3 ++ failure_events e)
          | (Ok _, b3, ev3) =>
              match hijack_refusal w (Backend.name b3) with
              | Some e =>
                  (Ok tt,
                   finished (set_progressBar 0%Z (set_target (Some t) (set_backend b3 w))),
                   Print "Exporting..." :: ev1 ++ dialog_events w ++ ev3 ++ failure_events e)
              | None =>
                  (Ok tt,
                   finished (set_progressBar 100%Z (set_target (Some t) (set_backend b3 w))),
                   Print "Exporting..." :: ev1 ++ dialog_events w ++ ev3
                   ++ hijack_events w (Backend.name b3))
              end
          end
      end
  end.
Proof.
  intros Hexp. rewrite (export_slot_run n pending answer w Hexp), export_try_run.
  change (config (entered w)) with (config w).
  change (backend (entered w)) with (backend w).
  change (target (entered w)) with (target w).
  change (@hijack_refusal _ _ _ (entered w)) with (@hijack_refusal _ _ _ w).
  change (@hijack_events _ _ (entered w)) with (@hijack_events _ _ w).
  unfold resolved_target, dialog_events, failure_events.
  destruct (Backend.make_material _ _) as [[[m|e] b1] ev1]; [| reflexivity].
  destruct (target w) as [t|] eqn:Ht.
  - cbn [target set_progressBar set_backend]. change (target (entered w)) with (target w).
    rewrite Ht.
    destruct (Backend.export m _) as [[[m'|e] b3] ev3];
      [destruct (hijack_refusal w (Backend.name b3)) as [e|] |];
      rewrite (set_target_same t (set_backend b3 w) Ht); cbn [app];
      rewrite <- ?app_assoc; reflexivity.
  - destruct answer as [|c a].
    + cbn [target set_progressBar set_backend]. change (target (entered w)) with (target w).
      rewrite Ht. now rewrite <- !app_assoc.
    + cbn [target set_target].
      destruct (Backend.export m _) as [[[m'|e] b3] ev3];
        [destruct (hijack_refusal w (Backend.name b3)) as [e|] |].
      * f_equal. now rewrite <- !app_assoc.
      * reflexivity.
      * f_equal. now rewrite <- !app_assoc.
Qed.
End WholeExport.

Section GuiExportExtras.
Context `{Host}.
Import Gui.


(** X12: when the window has no target, the material can be made and the
    user dismisses the file dialog, the export slot prints that the export was
    cancelled, shows no message box, writes no file, keeps the window without
    a target, resets the progress bar to 0 and leaves the directory and the
    name of the backend as they were. *)
Theorem export_cancelled_by_user (n : nat) (pending : list Trigger) (w : MainWindow)
    (m : Material) :
  exporting w = false ->
  target w = None ->
  outcome_of (Backend.make_material (reloadOnExport (config w))) (backend w) = Ok m ->
  events_of (export n pending "") w
  = [Print "Exporting..."; Print "Constructing material..."; Print "Picking target";
     FileDialog "Saving material..."; Print "The export was cancelled by the user."]
  /\ files_written (events_of (export n pending "") w) = []
  /\ target (state_after (export n pending "") w) = None
  /\ progressBar (state_after (export n pending "") w) = 0%Z
  /\ Backend.path (backend (state_after (export n pending "") w)) = Backend.path (backend w)
  /\ Backend.name (backend (state_after (export n pending "") w)) = Backend.name (backend w).
Proof.
  intros Hexp Ht Hm.
  pose proof (make_material_recached (reloadOnExport (config w)) (backend w))
    as (_ & Hpath & Hname & _).
  unfold outcome_of, events_of, state_after in *.
  rewrite (export_cycle_run n pending "" w Hexp).
  unfold resolved_target, dialog_events. rewrite Ht.
  destruct (Backend.make_material _ _) as [[o b1] ev1] eqn:Hrun. cbn [fst snd] in *.
  subst o.
  destruct (make_material_triple _ _ _ _ _ Hrun) as [(m0 & _ & ->) | (e & He & _)];
    [| discriminate].
  cbn [fst snd app files_written written failure_events]. repeat split; assumption.
Qed.

(** X13: when no export is running, a target is remembered or given in the
    dialog, the material can be made, the backend export returns and the
    program to reload the material, if one is configured, starts, the export
    slot writes the descriptor and then the textures next to the target,
    shows no message box, remembers the target, leaves the progress bar at
    100 and the backend with the name and directory resolved from the
    target. *)
Theorem export_cycle_writes_target (n : nat) (pending : list Trigger) (answer t : string)
    (w : MainWindow) (m m' : Material) :
  exporting w = false ->
  resolved_target answer w = Some t ->
  outcome_of (Backend.make_material (reloadOnExport (config w))) (backend w) = Ok m ->
  outcome_of (Backend.export m)
    (state_after (Backend.pick_vmt t)
       (state_after (Backend.make_material (reloadOnExport (config w))) (backend w)))
  = Ok m' ->
  hijack_refusal w (Backend.material_name t) = None ->
  exists textures,
    core_export m' = Some textures
    /\ files_written (events_of (export n pending answer) w)
       = (Pathlib.parent (Pathlib.Path t),
          PyStr.removesuffix (Pathlib.name (Pathlib.Path t)) ".vmt" +:+ ".vmt")
         :: List.map (fun texture =>
              (Pathlib.parent (Pathlib.Path t),
               PyStr.removesuffix (Pathlib.name (Pathlib.Path t)) ".vmt"
               +:+ tex_name texture +:+ ".vtf")) textures
    /\ Forall (fun ev => is_report ev = false) (events_of (export n pending answer) w)
    /\ target (state_after (export n pending answer) w) = Some t
    /\ progressBar (state_after (export n pending answer) w) = 100%Z
    /\ Backend.name (backend (state_after (export n pending answer) w))
       = Backend.material_name t
    /\ Backend.path (backend (state_after (export n pending answer) w))
       = Some (Pathlib.parent (Pathlib.Path t)).
Proof.
  intros Hexp Ht Hm Hx Hstart.
  destruct (export_after_pick_vmt t m m' _ Hx) as (textures & Htex & _ & Hfiles & _).
  exists textures. split; [exact Htex |].
  unfold outcome_of, events_of, state_after in *.
  rewrite (export_cycle_run n pending answer w Hexp), Ht.
  destruct (Backend.make_material _ _) as [[o b1] ev1] eqn:Hrun. cbn [fst snd] in *.
  subst o.
  destruct (make_material_triple _ _ _ _ _ Hrun) as [(m0 & _ & ->) | (e & He & _)];
    [| discriminate].
  rewrite pick_vmt_run in *. cbn [fst snd] in *.
  destruct (Backend.export m _) as [[o b3] ev3] eqn:Hxrun. cbn [fst snd] in *. subst o.
  destruct (export_triple _ _ _ _ _ Hxrun) as (-> & Hsilent).
  cbn [Backend.name Backend.set_target]. rewrite Hstart.
  cbn [fst snd]. repeat match goal with |- _ /\ _ => split end; try reflexivity.
  - cbn [app files_written written]. rewrite !files_written_app, Hfiles.
    unfold dialog_events, hijack_events.
    destruct (target w) as [t0|], (hijackTarget (config w)) as [[|c0 s0]|];
      cbn [app files_written written]; now rewrite ?app_nil_r.
  - apply List.Forall_cons; [reflexivity |]. apply List.Forall_cons; [reflexivity |].
    apply List.Forall_app. split.
    + unfold dialog_events. destruct (target w); repeat constructor.
    + apply List.Forall_app. split.
      * eapply List.Forall_impl; [| exact Hsilent]. now intros ev [_ Hr].
      * unfold hijack_events. destruct (hijackTarget (config w)) as [[|c s]|];
          repeat constructor.
Qed.

Lemma export_as_run (n : nat) (pending : list Trigger) (answer : string) (w : MainWindow) :
  exporting w = false ->
  export_as n pending answer w = export n pending answer (set_target None w).
Proof.
  intros Hexp. unfold export_as, export_as_of, bind at 1. cbn [get]. rewrite Hexp.
  unfold bind at 1. cbn [modify].
  now destruct (export n pending answer (set_target None w)) as [[r w'] evs].
Qed.

(** X14: after Export As on a window that is not exporting, the remembered
    target is the non-empty answer of the dialog or none at all, never the
    one held before; when the dialog is dismissed the target is gone and no
    file is written. *)
Theorem export_as_forgets_target (n : nat) (pending : list Trigger) (answer : string)
    (w : MainWindow) :
  exporting w = false ->
  (target (state_after (export_as n pending answer) w) = None
   \/ (answer <> "" /\ target (state_after (export_as n pending answer) w) = Some answer))
  /\ (answer = "" ->
      target (state_after (export_as n pending answer) w) = None
      /\ files_written (events_of (export_as n pending answer) w) = []).
Proof.
  intros Hexp. unfold events_of, state_after.
  rewrite (export_as_run n pending answer w Hexp).
  rewrite (export_cycle_run n pending answer (set_target None w)) by exact Hexp.
  unfold resolved_target, dialog_events.
  cbn [config backend target set_target].
  destruct (Backend.make_material _ _) as [[o b1] ev1] eqn:Hrun.
  destruct (make_material_triple _ _ _ _ _ Hrun) as [(m0 & -> & ->) | (e & -> & ->)].
  - destruct answer as [|c a].
    + cbn [fst snd app files_written written failure_events].
      split; [left; reflexivity | intros _; split; reflexivity].
    + destruct (Backend.export m0 _) as [[[m'|e] b3] ev3];
        [destruct (hijack_refusal _ (Backend.name b3)) as [e|] |]; cbn [fst snd];
        (split; [right; split; [discriminate | reflexivity] | discriminate]).
  - cbn [fst snd app]. split; [left; reflexivity |]. intros _. split; [reflexivity |].
    now destruct e.
Qed.


End GuiExportExtras.

Section WatchExtras.
Context `{Host}.
Import Gui.

Lemma watch_toggle_run (answer : string) (w : MainWindow) :
  (watching w = true \/ is_Some (target w)) ->
  watch answer w =
  (Ok tt,
   if watching w
   then set_watcher (removePaths (files (watcher w)) (watcher w))
          (set_watchAction "Watch" (set_watching false w))
   else set_watcher (addPaths (stored_paths (backend w)) (watcher w))
          (set_watchAction "Stop Watching" (set_watching true w)),
   [Print "Watching:"]).
Proof.
  intros Hcase. unfold watch, bind at 1. cbn [get].
  assert (Hskip : match watching w, target w with
                  | false, None =>
                      pick_target answer >>
                      (let* self := get in ret (negb (Backend.truthy (target self))))
                  | _, _ => ret false
                  end = ret false).
  { destruct (watching w); [reflexivity |].
    destruct Hcase as [Hcase | [t Ht]]; [discriminate | now rewrite Ht]. }
  rewrite Hskip. unfold bind, ret, modify, get, effect, start_watch, stop_watch.
  cbn [watching set_watching]. now destruct (watching w).
Qed.

Lemma watch_after_dialog (c : ascii) (a : string) (w : MainWindow) :
  watching w = false ->
  target w = None ->
  watch (String c a) w =
  (Ok tt,
   set_watcher (addPaths (stored_paths (backend w)) (watcher w))
     (set_watchAction "Stop Watching"
        (set_watching true (set_target (Some (String c a)) w))),
   [Print "Picking target"; FileDialog "Saving material..."; Print "Watching:"]).
Proof.
  intros Hw Htar. unfold watch, bind at 1. cbn [get]. rewrite Hw, Htar.
  unfold bind at 1. unfold bind at 1. rewrite pick_target_run.
  unfold bind, ret, modify, get, effect, start_watch, stop_watch.
  cbn [fst snd target set_target watching set_watching Backend.truthy negb].
  rewrite Hw. reflexivity.
Qed.

(** X16: the watch slot on a window that does not watch and has, or is
    given, a target returns with [watching] set and the target remembered;
    it adds to the watched files the stored paths that name a file that
    exists, and no other path; the backend is not touched. *)
Theorem watch_switches_on (answer t : string) (w : MainWindow) :
  watching w = false ->
  resolved_target answer w = Some t ->
  outcome_of (watch answer) w = Ok tt
  /\ watching (state_after (watch answer) w) = true
  /\ target (state_after (watch answer) w) = Some t
  /\ watcher (state_after (watch answer) w)
     = watcher w ∪ list_to_set (List.filter watchable (stored_paths (backend w)))
  /\ (forall p : string,
        p ∈ watcher (state_after (watch answer) w)
        <-> p ∈ watcher w
            \/ (watchable p = true
                /\ exists role, Backend.get_path role (backend w) = Some p))
  /\ backend (state_after (watch answer) w) = backend w.
Proof.
  intros Hw Ht. unfold resolved_target in Ht.
  assert (Hset : forall W : gset string, forall p : string,
             p ∈ W ∪ list_to_set (List.filter watchable (stored_paths (backend w)))
             <-> p ∈ W
                 \/ (watchable p = true
                     /\ exists role, Backend.get_path role (backend w) = Some p)).
  { intros W p. rewrite elem_of_union, elem_of_list_to_set. now rewrite watched_paths_spec. }
  unfold outcome_of, state_after.
  destruct (target w) as [t0|] eqn:Htar.
  - injection Ht as <-. rewrite watch_toggle_run by eauto. rewrite Hw. cbn [fst snd].
    repeat match goal with |- _ /\ _ => split end; try reflexivity; try assumption.
    apply Hset.
  - destruct answer as [|c a]; [discriminate |]. injection Ht as <-.
    rewrite (watch_after_dialog c a w Hw Htar). cbn [fst snd].
    repeat match goal with |- _ /\ _ => split end; try reflexivity.
    apply Hset.
Qed.

(** X17: the watch slot on a window that watches stops watching: no file
    stays watched, and the cooldown timer, the target and the backend stay as
    they are. *)
Theorem watch_switches_off (answer : string) (w : MainWindow) :
  watching w = true ->
  outcome_of (watch answer) w = Ok tt
  /\ events_of (watch answer) w = [Print "Watching:"]
  /\ watching (state_after (watch answer) w) = false
  /\ watcher (state_after (watch answer) w) = ∅
  /\ watcherCooldown (state_after (watch answer) w) = watcherCooldown w
  /\ target (state_after (watch answer) w) = target w
  /\ backend (state_after (watch answer) w) = backend w.
Proof.
  intros Hw. unfold outcome_of, events_of, state_after.
  rewrite watch_toggle_run by auto. rewrite Hw. cbn [fst snd].
  repeat match goal with |- _ /\ _ => split end; try reflexivity.
  cbn [watcher set_watcher]. unfold removePaths, files.
  now rewrite list_to_set_elements_L, difference_diag_L.
Qed.

Lemma watch_dismissed_run (w : MainWindow) :
  watching w = false ->
  target w = None ->
  outcome_of (watch "") w = Ok tt
  /\ state_after (watch "") w = w
  /\ events_of (watch "") w = [Print "Picking target"; FileDialog "Saving material..."].
Proof.
  intros Hw Ht.
  assert (Hrun : watch "" w
                 = (Ok tt, w, [Print "Picking target"; FileDialog "Saving material..."])).
  { unfold watch, bind at 1. cbn [get]. rewrite Hw, Ht.
    unfold bind at 1. unfold bind at 1. rewrite pick_target_run.
    unfold bind, ret, get. cbn [fst snd]. now rewrite Ht. }
  unfold outcome_of, events_of, state_after. rewrite Hrun. repeat split.
Qed.

(** X18: on a window that neither watches nor has a target, the watch slot
    asks for one and, when the dialog is dismissed, leaves the window
    unchanged. *)
Theorem watch_needs_target (w : MainWindow) :
  watching w = false ->
  target w = None ->
  outcome_of (watch "") w = Ok tt
  /\ state_after (watch "") w = w
  /\ events_of (watch "") w = [Print "Picking target"; FileDialog "Saving material..."].
Proof. exact (watch_dismissed_run w). Qed.

Lemma picked_run (kind : ImageRole) (path : option Pathlib.PurePath) (w : MainWindow) :
  picked kind path w =
  match Backend.pick (option_map Pathlib.to_str path) kind (backend w) with
  | (Raise e, b', evs) => (Raise e, set_backend b' w, evs)
  | (Ok img, b', evs) =>
      (Ok tt,
       if watching w
       then set_watcher (addPaths (stored_paths b')
                           (removePaths (files (watcher w)) (watcher w)))
              (set_watchAction "Stop Watching" (set_backend b' w))
       else set_backend b' w,
       evs ++ (if watching w then [Print "Resetting watch..."; Print "Watching:"] else [])
       ++ [SetIcon img])
  end.
Proof.
  unfold picked, bind at 1, on_backend, on_member.
  destruct (Backend.pick _ kind (backend w)) as [[[img|e] b'] evs]; [| reflexivity].
  unfold bind at 1, reset_watch, bind at 1. cbn [get watching set_backend].
  destruct (watching w); cbn [negb].
  - unfold stop_watch, start_watch, bind, modify, effect, get, ret.
    cbn [fst snd app]. reflexivity.
  - unfold bind, effect, ret. cbn [app]. reflexivity.
Qed.

(** X19: when the picked file does not decode, [picked] raises out of the
    slot before the watched files are recomputed: the watcher keeps its old
    files although the backend already holds the new path. *)
Theorem picked_failure_keeps_watch_set (kind : ImageRole) (p : Pathlib.PurePath)
    (w : MainWindow) :
  Pathlib.to_str p <> "" ->
  Backend.decode (Pathlib.to_str p) = None ->
  outcome_of (picked kind (Some p)) w = Raise (DecodeError (Pathlib.to_str p))
  /\ events_of (picked kind (Some p)) w = []
  /\ watcher (state_after (picked kind (Some p)) w) = watcher w
  /\ Backend.get_path kind (backend (state_after (picked kind (Some p)) w))
     = Some (Pathlib.to_str p).
Proof.
  intros Hp Hdec. unfold outcome_of, events_of, state_after.
  rewrite picked_run. cbn [option_map]. rewrite (pick_run _ kind _ Hp), Hdec.
  cbn [fst snd backend set_backend watcher].
  repeat split. now rewrite get_path_set_path, role_eqb_refl.
Qed.

(** X20: on a window that watches, any number of change notifications in
    a row leave exactly what one leaves: the cooldown timer restarted at 500
    ms and nothing else changed. *)
Theorem file_changes_collapse (file : string) (more : list string) (w : MainWindow) :
  watching w = true ->
  outcome_of (for_each (file :: more) on_file_changed) w = Ok tt
  /\ state_after (for_each (file :: more) on_file_changed) w
     = set_watcherCooldown (Some 500%Z) w.
Proof.
  intros Hw.
  assert (Hone : forall f w0, watching w0 = true ->
             on_file_changed f w0
             = (Ok tt, set_watcherCooldown (Some 500%Z) w0, [Print "File changed:"])).
  { intros f w0 Hw0. unfold on_file_changed, bind at 1. cbn [get]. now rewrite Hw0. }
  assert (Hmany : forall fs w0, watching w0 = true ->
             outcome_of (for_each fs on_file_changed) (set_watcherCooldown (Some 500%Z) w0)
             = Ok tt
             /\ state_after (for_each fs on_file_changed) (set_watcherCooldown (Some 500%Z) w0)
                = set_watcherCooldown (Some 500%Z) w0).
  { induction fs as [|f fs IH]; intros w0 Hw0; [split; reflexivity |].
    unfold outcome_of, state_after in *. cbn [for_each]. unfold bind.
    rewrite Hone by exact Hw0.
    change (set_watcherCooldown (Some 500%Z) (set_watcherCooldown (Some 500%Z) w0))
      with (set_watcherCooldown (Some 500%Z) w0).
    destruct (IH w0 Hw0) as [Ho Hs].
    destruct (for_each fs on_file_changed (set_watcherCooldown (Some 500%Z) w0))
      as [[r w1] evs]. cbn [fst snd] in *. now subst. }
  unfold outcome_of, state_after in *. cbn [for_each]. unfold bind.
  rewrite Hone by exact Hw. destruct (Hmany more w Hw) as [Ho Hs].
  destruct (for_each more on_file_changed (set_watcherCooldown (Some 500%Z) w))
    as [[r w1] evs]. cbn [fst snd] in *. now subst.
Qed.

End WatchExtras.

Section WindowInvariant.
Context `{Host}.
Import Gui.








End WindowInvariant.

Section WindowInvariantOverSlots.
Context `{CoreLib}.


End WindowInvariantOverSlots.

Section ComboBoxFacts.
Context {A : Type} `{EqDecision A}.
Import QDataComboBox.

Lemma find_data_spec (data : A) (items : list A) (i : Z) :
  (~ In data items -> find_data data items i = (-1)%Z)
  /\ (In data items ->
      exists k : nat,
        find_data data items i = (i + Z.of_nat k)%Z
        /\ nth_error items k = Some data
        /\ forall j, (j < k)%nat -> nth_error items j <> Some data).
Proof.
  revert i. induction items as [|item rest IH]; intros i; cbn [find_data].
  - split; [reflexivity | intros []].
  - destruct (decide (data = item)) as [-> | Hne].
    + split; [intros Hnot; exfalso; apply Hnot; now left |].
      intros _. exists 0%nat. split; [lia |]. split; [reflexivity |]. lia.
    + destruct (IH (i + 1)%Z) as [Hnone Hsome]. split.
      * intros Hnot. apply Hnone. intros Hin. apply Hnot. now right.
      * intros [Heq | Hin]; [congruence |].
        destruct (Hsome Hin) as (k & Hk & Hnth & Hfirst).
        exists (S k). split; [lia |]. split; [exact Hnth |].
        intros [|j] Hj; cbn [nth_error]; [congruence | apply Hfirst; lia].
Qed.

(** X22: [setCurrentData] selects index -1 when no item carries the data,
    and otherwise the index of the first item that carries it. *)
Theorem setCurrentData_first_match (items : list A) (data : A) :
  (~ In data items -> setCurrentData items data = (-1)%Z)
  /\ (In data items ->
      exists k : nat,
        setCurrentData items data = Z.of_nat k
        /\ nth_error items k = Some data
        /\ forall j, (j < k)%nat -> nth_error items j <> Some data).
Proof.
  unfold setCurrentData. destruct (find_data_spec data items 0%Z) as [Hnone Hsome].
  split; [exact Hnone |]. intros Hin.
  destruct (Hsome Hin) as (k & Hk & Hrest). exists k. split; [lia | exact Hrest].
Qed.
End ComboBoxFacts.

Section OldGuiFacts.
Context `{Host}.
Variable Backend : Type.
Variable backend_make_material : bool -> M Backend Material.
Variable backend_pick_vmt : string -> M Backend unit.
Variable backend_export : Material -> M Backend unit.

#[local] Notation "'old_export'" :=
  (OldGui.export Backend backend_make_material backend_pick_vmt backend_export)
  (only parsing).

Ltac norm_events :=
  repeat first [ progress cbn [app] | rewrite app_nil_r | rewrite <- app_assoc ];
  reflexivity.

Lemma old_export_run (answer : string) (w : OldGui.MainWindow Backend) :
  old_export answer w =
  match backend_make_material (Gui.reloadOnExport (OldGui.config Backend w))
          (OldGui.backend Backend w) with
  | (Raise e, b1, ev1) =>
      (Ok tt,
       OldGui.set_exportButton Backend true
         (OldGui.set_progressBar Backend 0%Z (OldGui.set_backend Backend b1 w)),
       Print "Exporting..." :: ev1 ++ failure_events e)
  | (Ok material, b1, ev1) =>
      match answer with
      | EmptyString =>
          (Ok tt,
           OldGui.set_exportButton Backend true
             (OldGui.set_progressBar Backend 0%Z (OldGui.set_backend Backend b1 w)),
           Print "Exporting..." :: ev1 ++ FileDialog "Saving material..."
           :: failure_events InterruptedError)
      | t =>
          match backend_pick_vmt t b1 with
          | (Raise e, b2, ev2) =>
              (Ok tt,
               OldGui.set_exportButton Backend true
                 (OldGui.set_progressBar Backend 0%Z (OldGui.set_backend Backend b2 w)),
               Print "Exporting..." :: ev1 ++ FileDialog "Saving material..." :: ev2
               ++ failure_events e)
          | (Ok _, b2, ev2) =>
              match backend_export material b2 with
              | (Raise e, b3, ev3) =>
                  (Ok tt,
                   OldGui.set_exportButton Backend true
                     (OldGui.set_progressBar Backend 0%Z (OldGui.set_backend Backend b3 w)),
                   Print "Exporting..." :: ev1 ++ FileDialog "Saving material..." :: ev2
                   ++ ev3 ++ failure_events e)
              | (Ok _, b3, ev3) =>
                  (Ok tt,
                   OldGui.set_exportButton Backend true
                     (OldGui.set_progressBar Backend 100%Z (OldGui.set_backend Backend b3 w)),
                   Print "Exporting..." :: ev1 ++ FileDialog "Saving material..." :: ev2
                   ++ ev3)
              end
          end
      end
  end.
Proof.
  unfold OldGui.export, try_finally, try_except, OldGui.export_try, OldGui.on_backend,
    on_member, failure_events.
  unfold bind, effect, modify, get, ret, raise.
  cbn [OldGui.config OldGui.backend OldGui.set_exportButton OldGui.set_progressBar
         OldGui.set_backend].
  destruct (backend_make_material _ _) as [[[m|e] b1] ev1].
  - destruct answer as [|c a].
    + cbn [fst snd]. f_equal. norm_events.
    + cbn [OldGui.backend OldGui.set_backend OldGui.set_progressBar OldGui.set_exportButton].
      destruct (backend_pick_vmt _ b1) as [[[u|e] b2] ev2].
      * cbn [OldGui.backend OldGui.set_backend OldGui.set_progressBar
               OldGui.set_exportButton].
        destruct (backend_export m b2) as [[[[]|e] b3] ev3].
        -- cbn [fst snd]. f_equal. norm_events.
        -- cbn [fst snd]. f_equal. destruct e; norm_events.
      * cbn [fst snd]. f_equal. destruct e; norm_events.
  - cbn [fst snd]. f_equal. destruct e; norm_events.
Qed.

(** X23: the export slot of the older window never raises, whatever its
    backend does; it ends with the button enabled, the progress bar at 0 or
    100 and the configuration unchanged. *)
Theorem old_export_always_returns (answer : string) (w : OldGui.MainWindow Backend) :
  outcome_of (old_export answer) w = Ok tt
  /\ OldGui.exportButton Backend (state_after (old_export answer) w) = true
  /\ (OldGui.progressBar Backend (state_after (old_export answer) w) = 0%Z
      \/ OldGui.progressBar Backend (state_after (old_export answer) w) = 100%Z)
  /\ OldGui.config Backend (state_after (old_export answer) w) = OldGui.config Backend w.
Proof.
  unfold outcome_of, state_after. rewrite old_export_run.
  destruct (backend_make_material _ _) as [[[m|e] b1] ev1];
    [destruct answer as [|c a];
     [| destruct (backend_pick_vmt _ b1) as [[[u|e] b2] ev2];
        [destruct (backend_export m b2) as [[[u'|e] b3] ev3] |]] |];
    cbn [fst snd]; repeat split; auto.
Qed.

(** X24: the older window asks for the target on every export, after the
    material is made; when the dialog is dismissed it prints that the export
    was cancelled, keeps the backend as [make_material] left it and resets the
    progress bar to 0. *)
Theorem old_export_dismissed (w : OldGui.MainWindow Backend) (m : Material)
    (b1 : Backend) (ev1 : list Event) :
  backend_make_material (Gui.reloadOnExport (OldGui.config Backend w))
    (OldGui.backend Backend w) = (Ok m, b1, ev1) ->
  events_of (old_export "") w
  = Print "Exporting..." :: ev1
    ++ [FileDialog "Saving material..."; Print "The export was cancelled by the user."]
  /\ OldGui.backend Backend (state_after (old_export "") w) = b1
  /\ OldGui.progressBar Backend (state_after (old_export "") w) = 0%Z
  /\ forall answer, In (FileDialog "Saving material...") (events_of (old_export answer) w).
Proof.
  intros Hrun. unfold events_of, state_after.
  assert (Hask : forall answer,
             In (FileDialog "Saving material...") (snd (old_export answer w))).
  { intros answer. rewrite old_export_run, Hrun.
    destruct answer as [|c a];
      [| destruct (backend_pick_vmt _ b1) as [[[u|e] b2] ev2];
         [destruct (backend_export m b2) as [[[u'|e] b3] ev3] |]];
      cbn [snd]; right; apply in_or_app; right; now left. }
  rewrite old_export_run, Hrun. cbn [fst snd failure_events]. repeat split. exact Hask.
Qed.

End OldGuiFacts.

Lemma setCurrentData_first_match_witness :
  exists k : nat,
    QDataComboBox.setCurrentData Scenario.menu VGMOD = Z.of_nat k
    /\ nth_error Scenario.menu k = Some VGMOD
    /\ forall j : nat, j < k -> nth_error Scenario.menu j <> Some VGMOD.
Proof.
  apply (proj2 (setCurrentData_first_match Scenario.menu VGMOD)).
  right. left. reflexivity.
Defined.

(** ** The further properties on the sample library *)

Lemma pick_stores_entry_witness :
  Backend.albedo (state_after (@Backend.pick _ Scenario.core (Some "albedo.png") Albedo)
                    Sample.empty_backend)
  = Some (Sample.colour 4 4).
Proof.
  destruct (@pick_stores_entry _ Scenario.core "albedo.png" Albedo Sample.empty_backend
              (Sample.colour 4 4, Sample.colour 4 4) ltac:(discriminate) eq_refl)
    as (_ & _ & _ & Himg & _).
  exact Himg.
Defined.

Lemma pick_falsy_clears_witness :
  Backend.albedoPath (state_after (@Backend.pick _ Scenario.core (Some "") Albedo) Sample.store)
  = Some ""
  /\ Backend.albedo (state_after (@Backend.pick _ Scenario.core (Some "") Albedo) Sample.store)
     = None.
Proof.
  destruct (@pick_falsy_clears _ Scenario.core (Some "") Albedo Sample.store eq_refl)
    as (_ & _ & Himg & Hpath & _).
  split; [exact Hpath | exact Himg].
Defined.

Lemma make_material_succeeds_iff_witness :
  exists m, outcome_of (@Backend.make_material _ Scenario.core true) Sample.store = Ok m.
Proof.
  apply (proj2 (@make_material_succeeds_iff _ Scenario.core true Sample.store)).
  exists (fun role => Backend.get_image role Sample.store).
  split; [intros role; destruct role; reflexivity |].
  split; eexists; reflexivity.
Defined.

Lemma make_material_errors_witness :
  (AssertionError "A basetexture is required to convert the material!"
   = AssertionError "A basetexture is required to convert the material!"
   /\ @Backend.channel _ Scenario.core false Albedo Sample.empty_backend = Some None)
  \/ (AssertionError "A basetexture is required to convert the material!"
      = AssertionError "A roughness map is required to convert the material!"
      /\ @Backend.channel _ Scenario.core false Roughness Sample.empty_backend = Some None)
  \/ (false = true
      /\ exists role p,
          Backend.get_path role Sample.empty_backend = Some p
          /\ @Backend.decode _ Scenario.core p = None
          /\ AssertionError "A basetexture is required to convert the material!"
             = DecodeError p).
Proof.
  exact (@make_material_errors _ Scenario.core false Sample.empty_backend _ eq_refl).
Defined.

Lemma make_material_refreshes_cache_witness :
  Backend.get_image Albedo
    (state_after (@Backend.make_material _ Scenario.core true) Sample.store)
  = Some (Sample.colour 4 4).
Proof.
  exact (proj2 (@make_material_refreshes_cache _ Scenario.core Sample.store
                  (fun role => Backend.get_image role Sample.store)
                  (Sample.colour 4 4) (Sample.grey 2 2)
                  (fun role => match role with Albedo => eq_refl | _ => eq_refl end)
                  eq_refl eq_refl Albedo)).
Defined.

Lemma make_material_modes_agree_witness :
  outcome_of (@Backend.make_material _ Scenario.core true) Sample.store
  = outcome_of (@Backend.make_material _ Scenario.core false) Sample.store.
Proof.
  exact (proj1 (@make_material_modes_agree _ Scenario.core Sample.store
                  (fun role => match role with Albedo => eq_refl | _ => eq_refl end))).
Defined.

Lemma export_failure_writes_prefix_witness :
  outcome_of (@Backend.export _ _ Scenario.locked_host Sample.material) Sample.targeted
  = Raise (OSError "c_bump.vtf")
  /\ files_written
       (events_of (@Backend.export _ _ Scenario.locked_host Sample.material) Sample.targeted)
     = [ (Pathlib.mkPath "/" ["a"; "materials"; "b"], "c.vmt");
         (Pathlib.mkPath "/" ["a"; "materials"; "b"], "c_albedo.vtf") ]
  /\ state_after (@Backend.export _ _ Scenario.locked_host Sample.material) Sample.targeted
     = Sample.targeted.
Proof.
  split; [reflexivity |]. split; [reflexivity |].
  exact (proj1 (@export_failure_writes_prefix _ _ Scenario.locked_host Sample.material
                  Sample.targeted (OSError "c_bump.vtf") eq_refl)).
Defined.

Lemma export_files_follow_target_witness :
  exists textures,
    @core_export _ Scenario.core (set_m_name "b/c" Sample.material) = Some textures
    /\ files_written (events_of (@Backend.export _ _ Scenario.host Sample.material)
                        (state_after (@Backend.pick_vmt _ Scenario.core "/a/materials/b/c.vmt")
                           Sample.store))
       = (Pathlib.mkPath "/" ["a"; "materials"; "b"], "c.vmt")
         :: List.map (fun texture =>
              (Pathlib.mkPath "/" ["a"; "materials"; "b"],
               "c" +:+ tex_name texture +:+ ".vtf")) textures.
Proof.
  destruct (@export_files_follow_target _ _ Scenario.host "/a/materials/b/c.vmt"
              Sample.material (set_m_name "b/c" Sample.material) Sample.store eq_refl)
    as (textures & Htex & _ & Hfiles & _).
  exists textures. split; [exact Htex | exact Hfiles].
Defined.


Lemma export_cancelled_by_user_witness :
  files_written (events_of (@Gui.export _ _ Scenario.host 0 [] "") Scenario.idle_window) = [].
Proof.
  exact (proj1 (proj2 (@export_cancelled_by_user _ _ Scenario.host 0 [] Scenario.idle_window
                         Sample.material eq_refl eq_refl eq_refl))).
Defined.

Lemma export_cycle_writes_target_witness :
  Gui.target (state_after (@Gui.export _ _ Scenario.host 0 [] "/a/materials/b/c.vmt") Scenario.idle_window)
  = Some "/a/materials/b/c.vmt".
Proof.
  destruct (@export_cycle_writes_target _ _ Scenario.host 0 [] "/a/materials/b/c.vmt"
              "/a/materials/b/c.vmt" Scenario.idle_window Sample.material
              (set_m_name "b/c" Sample.material) eq_refl eq_refl eq_refl eq_refl eq_refl)
    as (textures & _ & _ & _ & Htarget & _).
  exact Htarget.
Defined.

Lemma export_as_forgets_target_witness :
  Gui.target (state_after (@Gui.export_as _ _ Scenario.host 0 [] "") Scenario.watching_window) = None.
Proof.
  exact (proj1 (proj2 (@export_as_forgets_target _ _ Scenario.host 0 [] "" Scenario.watching_window
                         eq_refl) eq_refl)).
Defined.


Lemma watch_switches_on_witness :
  Gui.watching (state_after (@Gui.watch _ _ Scenario.host "/a/b/c.vmt") Scenario.idle_window) = true.
Proof.
  exact (proj1 (proj2 (@watch_switches_on _ _ Scenario.host "/a/b/c.vmt" "/a/b/c.vmt"
                         Scenario.idle_window eq_refl eq_refl))).
Defined.

Lemma watch_switches_off_witness :
  Gui.watcher (state_after (@Gui.watch _ _ Scenario.host "") Scenario.watching_window) = ∅.
Proof.
  destruct (@watch_switches_off _ _ Scenario.host "" Scenario.watching_window eq_refl)
    as (_ & _ & _ & Hempty & _).
  exact Hempty.
Defined.

Lemma watch_needs_target_witness :
  state_after (@Gui.watch _ _ Scenario.host "") Scenario.idle_window = Scenario.idle_window.
Proof.
  exact (proj1 (proj2 (@watch_needs_target _ _ Scenario.host Scenario.idle_window eq_refl eq_refl))).
Defined.

Lemma picked_failure_keeps_watch_set_witness :
  Gui.watcher (state_after (@Gui.picked _ _ Scenario.host Normal
                              (Some (Pathlib.Path "nothere.png"))) Scenario.watching_window)
  = Gui.watcher Scenario.watching_window.
Proof.
  destruct (@picked_failure_keeps_watch_set _ _ Scenario.host Normal
              (Pathlib.Path "nothere.png") Scenario.watching_window ltac:(discriminate) eq_refl)
    as (_ & _ & Hsame & _).
  exact Hsame.
Defined.

Lemma file_changes_collapse_witness :
  state_after (@for_each _ Scenario.core _ _ ["rough.png"; "albedo.png"; "rough.png"]
                 Gui.on_file_changed) Scenario.watching_window
  = Gui.set_watcherCooldown (Some 500%Z) Scenario.watching_window.
Proof.
  exact (proj2 (@file_changes_collapse _ Scenario.core "rough.png" ["albedo.png"; "rough.png"]
                  Scenario.watching_window eq_refl)).
Defined.

Lemma old_export_dismissed_witness :
  OldGui.progressBar _
    (state_after (@OldGui.export _ Scenario.core _ (@Backend.make_material _ Scenario.core)
                    (@Backend.pick_vmt _ Scenario.core) Scenario.old_backend_export "") Scenario.old_window)
  = 0%Z.
Proof.
  destruct (@old_export_dismissed _ Scenario.core _ (@Backend.make_material _ Scenario.core)
              (@Backend.pick_vmt _ Scenario.core) Scenario.old_backend_export Scenario.old_window
              Sample.material Sample.store [Print "Constructing material..."] eq_refl)
    as (_ & _ & Hprog & _).
  exact Hprog.
Defined.
